(** * markflow: line detectors and the reformatting pipeline

    A shallow embedding of [markflow/detectors/_lines.py] and
    [markflow/reformat_markdown.py].

    Python [str] values are modelled by [string]; a character is the code
    point it denotes (0..255).  Python [int]s that count lines or columns are
    natural numbers.  Logging calls have no effect on the values computed and
    are left out. *)

From Stdlib Require Import Bool Arith Lia List Ascii String DecimalString.
Import ListNotations.

Open Scope string_scope.
Open Scope list_scope.
Open Scope nat_scope.

(** ** Python built-ins used by the sources *)

Module Py.

(** [c.isspace()] for a single character: the white-space code points below
    256 are TAB..CR, FS..US, SPACE, NEL and NBSP. *)
Definition isspace (c : ascii) : bool :=
  let n := nat_of_ascii c in
  ((9 <=? n) && (n <=? 13)) || ((28 <=? n) && (n <=? 32))
  || (n =? 133) || (n =? 160).

(** [bool(s)]: a string is truthy when it is not empty. *)
Definition truthy (s : string) : bool :=
  match s with
  | EmptyString => false
  | String _ _ => true
  end.

(** [s.lstrip()] *)
Fixpoint lstrip (s : string) : string :=
  match s with
  | EmptyString => EmptyString
  | String c s' => if isspace c then lstrip s' else s
  end.

(** [s.rstrip()] *)
Fixpoint rstrip (s : string) : string :=
  match s with
  | EmptyString => EmptyString
  | String c s' =>
      let r := rstrip s' in
      if isspace c && negb (truthy r) then EmptyString else String c r
  end.

(** [s.strip()] *)
Definition strip (s : string) : string := rstrip (lstrip s).

(** [s.startswith(p)] *)
Definition startswith (s p : string) : bool := String.prefix p s.

(** [s * n] *)
Fixpoint repeat (s : string) (n : nat) : string :=
  match n with
  | O => EmptyString
  | S n' => s ++ repeat s n'
  end.

(** [all(p(c) for c in s)] *)
Fixpoint all (p : ascii -> bool) (s : string) : bool :=
  match s with
  | EmptyString => true
  | String c s' => p c && all p s'
  end.

(** [s.split()]: the maximal runs of non-white-space characters.  [word]
    holds the run being read, last character first. *)
Fixpoint rev_string (acc s : string) : string :=
  match s with
  | EmptyString => acc
  | String c s' => rev_string (String c acc) s'
  end.

Fixpoint split_from (word : string) (s : string) : list string :=
  match s with
  | EmptyString =>
      if truthy word then [rev_string EmptyString word] else []
  | String c s' =>
      if isspace c
      then (if truthy word
            then rev_string EmptyString word :: split_from EmptyString s'
            else split_from EmptyString s')
      else split_from (String c word) s'
  end.

Definition split (s : string) : list string := split_from EmptyString s.

(** [sep.join(parts)] *)
Definition join (sep : string) (parts : list string) : string :=
  String.concat sep parts.

(** [s.splitlines()]: lines end at LF, CR, CRLF, VT, FF, FS, GS, RS or NEL;
    the terminators are dropped and a final unterminated line is kept. *)
Definition is_linebreak (c : ascii) : bool :=
  let n := nat_of_ascii c in
  ((10 <=? n) && (n <=? 13)) || ((28 <=? n) && (n <=? 30)) || (n =? 133).

Fixpoint splitlines_from (cur : string) (s : string) : list string :=
  match s with
  | EmptyString =>
      if truthy cur then [rev_string EmptyString cur] else []
  | String c s' =>
      if is_linebreak c
      then rev_string EmptyString cur ::
           match s' with
           | String d s'' =>
               if (nat_of_ascii c =? 13) && (nat_of_ascii d =? 10)
               then splitlines_from EmptyString s''
               else splitlines_from EmptyString s'
           | EmptyString => []
           end
      else splitlines_from (String c cur) s'
  end.

Definition splitlines (s : string) : list string :=
  splitlines_from EmptyString s.

(** [str(n)] for a non-negative [int], as [str.format] prints it. *)
Definition str_of_nat (n : nat) : string :=
  NilEmpty.string_of_uint (Nat.to_uint n).

End Py.

(** ** The fragment of [re] that [LIST_START_REGEX] is written in *)

Module Re.

Inductive regex : Type :=
| Fail                         (* matches nothing *)
| Empty                        (* the empty pattern *)
| Bol                          (* [^] without MULTILINE *)
| Class (p : ascii -> bool)    (* one character of a class *)
| Cat (r1 r2 : regex)
| Alt (r1 r2 : regex)
| Star (r : regex).

Definition Chr (c : ascii) : regex := Class (Ascii.eqb c).
Definition Plus (r : regex) : regex := Cat r (Star r).

(** [nullable start r]: [r] matches the empty string at the current position,
    [start] telling whether that position is the start of the subject. *)
Fixpoint nullable (start : bool) (r : regex) : bool :=
  match r with
  | Fail => false
  | Empty => true
  | Bol => start
  | Class _ => false
  | Cat r1 r2 => nullable start r1 && nullable start r2
  | Alt r1 r2 => nullable start r1 || nullable start r2
  | Star _ => true
  end.

(** What is left of [r] to be matched once the character [c] is read. *)
Fixpoint deriv (start : bool) (c : ascii) (r : regex) : regex :=
  match r with
  | Fail | Empty | Bol => Fail
  | Class p => if p c then Empty else Fail
  | Cat r1 r2 =>
      Alt (Cat (deriv start c r1) r2)
          (if nullable start r1 then deriv start c r2 else Fail)
  | Alt r1 r2 => Alt (deriv start c r1) (deriv start c r2)
  | Star r1 => Cat (deriv start c r1) (Star r1)
  end.

(** [r.match]-like test: some prefix of [s] matches [r]. *)
Fixpoint match_prefix (start : bool) (r : regex) (s : string) : bool :=
  nullable start r ||
  match s with
  | EmptyString => false
  | String c s' => match_prefix false (deriv start c r) s'
  end.

(** [bool(r.search(s))]: a match starts at some position of [s]. *)
Fixpoint search_from (start : bool) (r : regex) (s : string) : bool :=
  match_prefix start r s ||
  match s with
  | EmptyString => false
  | String _ s' => search_from false r s'
  end.

Definition search (r : regex) (s : string) : bool := search_from true r s.

End Re.

(** ** [markflow/detectors/_lines.py] *)

(** Modelled from the spec: [get_indent] is imported from [markflow/_utils],
    which is not among the sources.  The spec calls its result the line's
    "leading-whitespace column count": the number of white-space characters in
    front of the first other character. *)
Fixpoint get_indent (line : string) : nat :=
  match line with
  | EmptyString => 0
  | String c line' => if Py.isspace c then S (get_indent line') else 0
  end.

Definition FENCED_CODE_BLOCK_FENCE_CHARACTERS : list string := ["`"; "~"].

Definition is_digit (c : ascii) : bool :=
  (48 <=? nat_of_ascii c) && (nat_of_ascii c <=? 57).

Definition LIST_START_REGEX : Re.regex :=
  Re.Cat Re.Bol
 (Re.Cat (Re.Star (Re.Class Py.isspace))
 (Re.Cat (Re.Alt (Re.Chr "*")
         (Re.Alt (Re.Chr "-")
         (Re.Alt (Re.Chr "+")
                 (Re.Cat (Re.Plus (Re.Class is_digit)) (Re.Chr ".")))))
         (Re.Chr " "))).

Definition THEMATIC_BREAK_CHARACTERS : list string := ["*"; "_"; "-"].

(** [char == symbol], a character of a string compared with a string. *)
Definition char_is (symbol : string) (char : ascii) : bool :=
  String.eqb (String char EmptyString) symbol.

Definition is_indented_code_block_start_line (line : string) : bool :=
  Py.truthy (Py.strip line) && (4 <=? get_indent line).

Definition is_atx_heading_line (line : string) : bool :=
  negb (is_indented_code_block_start_line line)
  && Py.startswith (Py.lstrip line) "#".

Definition is_blank_line_line (line : string) : bool :=
  negb (Py.truthy (Py.strip line)).

Definition is_block_quote_line (line : string) : bool :=
  negb (is_indented_code_block_start_line line)
  && Py.startswith (Py.lstrip line) ">".

(** The [for] loop with its early [return True]. *)
Fixpoint fenced_start_loop (fences : list string) (line : string) : bool :=
  match fences with
  | [] => false
  | fence :: fences' =>
      if Py.startswith (Py.strip line) (Py.repeat fence 3) then true
      else fenced_start_loop fences' line
  end.

Definition is_fenced_code_block_start_line (line : string) : bool :=
  fenced_start_loop FENCED_CODE_BLOCK_FENCE_CHARACTERS line.

Definition is_list_start_line (line : string) : bool :=
  negb (is_indented_code_block_start_line line)
  && Re.search LIST_START_REGEX line.

Definition is_table_start_line (line : string) : bool :=
  Py.startswith (Py.lstrip line) "|".

(** The [for ... else] over the symbols. *)
Fixpoint thematic_symbol_loop (symbols : list string) (spaceless : string)
  : bool :=
  match symbols with
  | [] => false
  | symbol :: symbols' =>
      if Py.all (char_is symbol) (Py.strip spaceless) then true
      else thematic_symbol_loop symbols' spaceless
  end.

Definition is_thematic_break_line (line : string) : bool :=
  if is_indented_code_block_start_line line then false
  else
    let spaceless_line := Py.join "" (Py.split line) in
    if String.length spaceless_line <? 3 then false
    else thematic_symbol_loop THEMATIC_BREAK_CHARACTERS spaceless_line.

(** The checkers [is_paragraph_start_line] walks through, in its order. *)
Definition paragraph_line_checkers : list (string -> bool) :=
  [ is_indented_code_block_start_line;
    is_atx_heading_line;
    is_blank_line_line;
    is_block_quote_line;
    is_fenced_code_block_start_line;
    is_list_start_line;
    is_table_start_line;
    is_thematic_break_line ].

Fixpoint paragraph_checker_loop (checkers : list (string -> bool))
  (line : string) : bool :=
  match checkers with
  | [] => true
  | line_checker :: checkers' =>
      if line_checker line then false
      else paragraph_checker_loop checkers' line
  end.

Definition is_paragraph_start_line (line : string) : bool :=
  paragraph_checker_loop paragraph_line_checkers line.

Definition is_setext_underline (line : string) : bool :=
  negb (is_indented_code_block_start_line line)
  && Py.truthy (Py.strip line)
  && (Py.all (char_is "=") (Py.strip line)
      || Py.all (char_is "-") (Py.strip line)).


(** ** [markflow/reformat_markdown.py] *)

(** The line break, ["\n"]. *)
Definition NL : string := String (ascii_of_nat 10) EmptyString.

Inductive MarkdownSectionEnum : Type :=
| ATX_HEADING
| BLANK_LINE
| BLOCK_QUOTE
| FENCED_CODE_BLOCK
| INDENTED_CODE_BLOCK
| LINK_REFERENCE_DEFINITION
| LIST
| PARAGRAPH
| SETEXT_HEADING
| TABLE
| THEMATIC_BREAK.

Definition MarkdownSectionEnum_eq_dec (a b : MarkdownSectionEnum)
  : {a = b} + {a <> b}.
Proof. decide equality. Defined.

(** The [.value] of a member. *)
Definition value (section_type : MarkdownSectionEnum) : string :=
  match section_type with
  | ATX_HEADING => "ATX Heading"
  | BLANK_LINE => "Blank Line"
  | BLOCK_QUOTE => "Block Quote"
  | FENCED_CODE_BLOCK => "Fenced Code Block"
  | INDENTED_CODE_BLOCK => "Indented Code Block"
  | LINK_REFERENCE_DEFINITION => "Link Reference Definition"
  | LIST => "List"
  | PARAGRAPH => "Paragraph"
  | SETEXT_HEADING => "Setext Heading"
  | TABLE => "Table"
  | THEMATIC_BREAK => "Thematic Break"
  end.

(** [SplitFunc]: from the remaining lines to (section lines, lines left). *)
Definition SplitFunc : Type := list string -> list string * list string.

(** The splitters imported from [.detectors].  Their bodies are not among the
    sources; the pipeline is embedded over any eleven of them. *)
Record Detectors : Type := {
  split_atx_heading : SplitFunc;
  split_blank_line : SplitFunc;
  split_block_quote : SplitFunc;
  split_fenced_code_block : SplitFunc;
  split_indented_code_block : SplitFunc;
  split_link_reference_definition : SplitFunc;
  split_list : SplitFunc;
  split_paragraph : SplitFunc;
  split_setext_heading : SplitFunc;
  split_table : SplitFunc;
  split_thematic_break : SplitFunc
}.

(** A [MarkdownSection] subclass, seen through the one way the pipeline uses
    it: [cls(offset, lines).reformatted(width)]. *)
Definition MarkdownSection (Number : Type) : Type :=
  nat -> list string -> Number -> string.

(** The section classes imported from [.formatters], not among the sources
    either. *)
Record Formatters (Number : Type) : Type := {
  MarkdownATXHeading : MarkdownSection Number;
  MarkdownBlankLine : MarkdownSection Number;
  MarkdownBlockQuote : MarkdownSection Number;
  MarkdownFencedCodeBlock : MarkdownSection Number;
  MarkdownIndentedCodeBlock : MarkdownSection Number;
  MarkdownLinkReferenceDefinition : MarkdownSection Number;
  MarkdownList : MarkdownSection Number;
  MarkdownParagraph : MarkdownSection Number;
  MarkdownSetextHeading : MarkdownSection Number;
  MarkdownTable : MarkdownSection Number;
  MarkdownThematicBreak : MarkdownSection Number
}.

Arguments MarkdownATXHeading {Number}.
Arguments MarkdownBlankLine {Number}.
Arguments MarkdownBlockQuote {Number}.
Arguments MarkdownFencedCodeBlock {Number}.
Arguments MarkdownIndentedCodeBlock {Number}.
Arguments MarkdownLinkReferenceDefinition {Number}.
Arguments MarkdownList {Number}.
Arguments MarkdownParagraph {Number}.
Arguments MarkdownSetextHeading {Number}.
Arguments MarkdownTable {Number}.
Arguments MarkdownThematicBreak {Number}.

Inductive exn : Type :=
| RuntimeError (message : string)
| ReformatInconsistentException (message : string).

(** What a call comes to: a value, an exception, or a loop that was cut off
    after the allotted number of iterations. *)
Inductive outcome (A : Type) : Type :=
| Return (a : A)
| Raise (e : exn)
| OutOfFuel.

Arguments Return {A}.
Arguments Raise {A}.
Arguments OutOfFuel {A}.

Definition section : Type := MarkdownSectionEnum * list string.

(** The variables of the classification loop. *)
Record loop_state : Type := {
  sections : list section;
  current_line : nat;
  remaining_lines : list string
}.

(** A formatter object: the class it was made from and its arguments. *)
Record formatter : Type := {
  f_type : MarkdownSectionEnum;
  f_offset : nat;
  f_content : list string
}.

(** The variables of the rendering loop. *)
Record render_state : Type := {
  formatters : list formatter;
  current_blank_lines : list formatter;
  offset : nat
}.

Definition classified_lines (secs : list section) : nat :=
  list_sum (map (fun s : section => List.length (snd s)) secs).

Definition INCONSISTENT_MESSAGE : string :=
  "Reformat of reformatted code results in different text. Please open a bug "
  ++ "report or email jholland@duosecurity.com.".

Section Pipeline.

Context {Number : Type}.
Variable D : Detectors.
Variable F : Formatters Number.

Definition SPLITTERS : list (MarkdownSectionEnum * SplitFunc) :=
  [ (ATX_HEADING, split_atx_heading D);
    (BLANK_LINE, split_blank_line D);
    (BLOCK_QUOTE, split_block_quote D);
    (FENCED_CODE_BLOCK, split_fenced_code_block D);
    (INDENTED_CODE_BLOCK, split_indented_code_block D);
    (LINK_REFERENCE_DEFINITION, split_link_reference_definition D);
    (LIST, split_list D);
    (SETEXT_HEADING, split_setext_heading D);
    (PARAGRAPH, split_paragraph D);
    (TABLE, split_table D);
    (THEMATIC_BREAK, split_thematic_break D) ].

Definition FORMATTERS (section_type : MarkdownSectionEnum)
  : MarkdownSection Number :=
  match section_type with
  | ATX_HEADING => MarkdownATXHeading F
  | BLANK_LINE => MarkdownBlankLine F
  | BLOCK_QUOTE => MarkdownBlockQuote F
  | FENCED_CODE_BLOCK => MarkdownFencedCodeBlock F
  | INDENTED_CODE_BLOCK => MarkdownIndentedCodeBlock F
  | LINK_REFERENCE_DEFINITION => MarkdownLinkReferenceDefinition F
  | LIST => MarkdownList F
  | PARAGRAPH => MarkdownParagraph F
  | SETEXT_HEADING => MarkdownSetextHeading F
  | TABLE => MarkdownTable F
  | THEMATIC_BREAK => MarkdownThematicBreak F
  end.

(** The [for section_type, splitter in ...] loop over what is left of the
    splitter list: [Some] at the [break], [None] when the [else] branch is
    reached.  Every call rebinds [remaining_lines], matched or not. *)
Fixpoint for_splitters (splitters : list (MarkdownSectionEnum * SplitFunc))
  (remaining_lines : list string)
  : option (MarkdownSectionEnum * list string * list string) :=
  match splitters with
  | [] => None
  | (section_type, splitter) :: splitters' =>
      let (section_content, remaining_lines') := splitter remaining_lines in
      match section_content with
      | _ :: _ => Some (section_type, section_content, remaining_lines')
      | [] => for_splitters splitters' remaining_lines'
      end
  end.

Definition stall_message (secs : list section) : string :=
  "Could not determine section type on line "
  ++ Py.str_of_nat (classified_lines secs + 1).

(** One turn of the [while remaining_lines:] loop. *)
Definition loop_body (st : loop_state) : outcome loop_state :=
  match for_splitters SPLITTERS (remaining_lines st) with
  | Some (section_type, section_content, remaining_lines') =>
      Return {| sections := sections st ++ [(section_type, section_content)];
                current_line := current_line st + List.length section_content;
                remaining_lines := remaining_lines' |}
  | None => Raise (RuntimeError (stall_message (sections st)))
  end.

Fixpoint while_remaining (fuel : nat) (st : loop_state)
  : outcome loop_state :=
  match remaining_lines st with
  | [] => Return st
  | _ :: _ =>
      match fuel with
      | O => OutOfFuel
      | S fuel' =>
          match loop_body st with
          | Return st' => while_remaining fuel' st'
          | Raise e => Raise e
          | OutOfFuel => OutOfFuel
          end
      end
  end.

Definition classify (fuel : nat) (lines : list string)
  : outcome loop_state :=
  while_remaining fuel
    {| sections := []; current_line := 1; remaining_lines := lines |}.

(** One turn of the [for section_type, section_content in sections:] loop. *)
Definition render_body (rs : render_state) (sec : section) : render_state :=
  let (section_type, section_content) := sec in
  let formatter :=
    {| f_type := section_type; f_offset := offset rs;
       f_content := section_content |} in
  if MarkdownSectionEnum_eq_dec section_type BLANK_LINE
  then {| formatters := formatters rs;
          current_blank_lines := current_blank_lines rs ++ [formatter];
          offset := offset rs + List.length section_content |}
  else {| formatters := (formatters rs ++ current_blank_lines rs) ++ [formatter];
          current_blank_lines := [];
          offset := offset rs + List.length section_content |}.

Definition render_loop (rs : render_state) (secs : list section)
  : render_state :=
  fold_left render_body secs rs.

Definition reformatted (f : formatter) (width : Number) : string :=
  FORMATTERS (f_type f) (f_offset f) (f_content f) width.

Definition render (secs : list section) (width : Number) : string :=
  let rs :=
    render_loop {| formatters := []; current_blank_lines := []; offset := 0 |}
                secs in
  Py.join NL (map (fun f => reformatted f width) (formatters rs)) ++ NL.

Definition _reformat_markdown_text (fuel : nat) (log_text : string)
  (width : Number) : outcome string :=
  match classify fuel (Py.splitlines log_text) with
  | Return st => Return (render (sections st) width)
  | Raise e => Raise e
  | OutOfFuel => OutOfFuel
  end.

Definition reformat_markdown_text (fuel : nat) (text : string)
  (width : Number) : outcome string :=
  match _reformat_markdown_text fuel text width with
  | Return new_text =>
      match _reformat_markdown_text fuel new_text width with
      | Return new_new_text =>
          if negb (String.eqb new_new_text new_text)
          then Raise (ReformatInconsistentException INCONSISTENT_MESSAGE)
          else Return new_text
      | Raise e => Raise e
      | OutOfFuel => OutOfFuel
      end
  | Raise e => Raise e
  | OutOfFuel => OutOfFuel
  end.

End Pipeline.

(** ** Notions used to state the properties *)

(** [s.endswith(suffix)] *)
Fixpoint endswith (s suffix : string) : bool :=
  String.eqb s suffix ||
  match s with
  | EmptyString => false
  | String _ s' => endswith s' suffix
  end.

(** A string without white space. *)
Definition spaceless (s : string) : bool :=
  Py.all (fun c => negb (Py.isspace c)) s.

(** A pattern that no string matches, recognised syntactically. *)
Fixpoint void (r : Re.regex) : bool :=
  match r with
  | Re.Fail => true
  | Re.Cat r1 _ => void r1
  | Re.Alt r1 r2 => void r1 && void r2
  | _ => false
  end.

(** The states the classification loop goes through on a document: the state
    it starts in, and the state each completed turn leaves. *)
Inductive reachable (D : Detectors) (lines : list string)
  : loop_state -> Prop :=
| reach_start :
    reachable D lines
      {| sections := []; current_line := 1; remaining_lines := lines |}
| reach_turn st st' :
    reachable D lines st ->
    remaining_lines st <> [] ->
    loop_body D st = Return st' ->
    reachable D lines st'.

(** The lines of the classified sections, in classification order. *)
Definition section_lines (secs : list section) : list string :=
  List.concat (map snd secs).

(** A splitter hands back its input, cut in two. *)
Definition splits_input (f : SplitFunc) : Prop :=
  forall lines, fst (f lines) ++ snd (f lines) = lines.

Definition partition_contract (D : Detectors) : Prop :=
  forall section_type f, In (section_type, f) (SPLITTERS D) -> splits_input f.

(** A splitter that consumes nothing leaves the lines as they were. *)
Definition unmatched_unchanged (D : Detectors) : Prop :=
  forall section_type f lines,
    In (section_type, f) (SPLITTERS D) ->
    fst (f lines) = [] -> snd (f lines) = lines.

(** Modelled from the spec: [split_setext_heading] is not among the sources.
    The spec has it consume "a paragraph-start line ... that is immediately
    followed by a setext-underline", both lines going to the heading. *)
Definition setext_contract (D : Detectors) : Prop :=
  forall l1 l2 rest,
    is_paragraph_start_line l1 = true ->
    is_setext_underline l2 = true ->
    split_setext_heading D (l1 :: l2 :: rest) = ([l1; l2], rest).

(** The splitters tried ahead of the one for [section_type]. *)
Fixpoint before (section_type : MarkdownSectionEnum)
  (splitters : list (MarkdownSectionEnum * SplitFunc))
  : list (MarkdownSectionEnum * SplitFunc) :=
  match splitters with
  | [] => []
  | (section_type', f) :: splitters' =>
      if MarkdownSectionEnum_eq_dec section_type' section_type then []
      else (section_type', f) :: before section_type splitters'
  end.

(** The section records with the offset the rendering loop gives each. *)
Fixpoint annotate (offset : nat) (secs : list section) : list formatter :=
  match secs with
  | [] => []
  | (section_type, section_content) :: secs' =>
      {| f_type := section_type; f_offset := offset;
         f_content := section_content |}
      :: annotate (offset + List.length section_content) secs'
  end.

Definition is_blank_formatter (f : formatter) : bool :=
  if MarkdownSectionEnum_eq_dec (f_type f) BLANK_LINE then true else false.

Definition is_blank_section (sec : section) : bool :=
  if MarkdownSectionEnum_eq_dec (fst sec) BLANK_LINE then true else false.

(** A list of formatters without the Blank Line ones it ends with. *)
Fixpoint drop_trailing_blank (fs : list formatter) : list formatter :=
  match fs with
  | [] => []
  | f :: fs' =>
      match drop_trailing_blank fs' with
      | [] => if is_blank_formatter f then [] else [f]
      | kept => f :: kept
      end
  end.

Definition render_start : render_state :=
  {| formatters := []; current_blank_lines := []; offset := 0 |}.

(** ** Sample collaborators

    The theorems on the pipeline hold for any detectors and formatters.  The
    ones below give them something concrete to run on. *)

Definition span_lines (p : string -> bool) : SplitFunc :=
  fix go (lines : list string) : list string * list string :=
    match lines with
    | [] => ([], [])
    | line :: lines' =>
        if p line then let (run, rest) := go lines' in (line :: run, rest)
        else ([], lines)
    end.

Definition one_line (p : string -> bool) : SplitFunc :=
  fun lines =>
    match lines with
    | line :: lines' => if p line then ([line], lines') else ([], lines)
    | [] => ([], [])
    end.

(** Modelled from the spec: the splitter bodies are not among the sources.
    "consumes exactly one line if it matches the ATX predicate". *)
Definition spec_split_atx_heading : SplitFunc := one_line is_atx_heading_line.

(** Modelled from the spec: the splitter bodies are not among the sources.
    "consumes a maximal run of consecutive blank lines from the head". *)
Definition spec_split_blank_line : SplitFunc := span_lines is_blank_line_line.

(** Modelled from the spec: the splitter bodies are not among the sources.
    "consumes exactly one line if it matches". *)
Definition spec_split_thematic_break : SplitFunc :=
  one_line is_thematic_break_line.

(** Modelled from the spec: the splitter bodies are not among the sources.
    "consumes a maximal run of consecutive lines each matching table-start". *)
Definition spec_split_table : SplitFunc := span_lines is_table_start_line.

(** Modelled from the spec: the splitter bodies are not among the sources.
    "consumes a maximal run of consecutive lines that each individually
    qualify as paragraph-start-or-continuation", ended by a blank line, a line
    opening another section type, or the end of the document. *)
Definition spec_split_paragraph : SplitFunc :=
  span_lines is_paragraph_start_line.

(** Modelled from the spec: the splitter bodies are not among the sources.
    "consumes a paragraph-start line (or short run of lines) that is
    immediately followed by a setext-underline; otherwise matches nothing". *)
Fixpoint setext_run (lines : list string)
  : option (list string * list string) :=
  match lines with
  | l1 :: ((l2 :: rest) as lines') =>
      if is_paragraph_start_line l1 then
        if is_setext_underline l2 then Some ([l1; l2], rest)
        else match setext_run lines' with
             | Some (heading, rest') => Some (l1 :: heading, rest')
             | None => None
             end
      else None
  | _ => None
  end.

Definition spec_split_setext_heading : SplitFunc :=
  fun lines =>
    match setext_run lines with
    | Some split => split
    | None => ([], lines)
    end.

(** The splitter that never matches. *)
Definition no_match : SplitFunc := fun lines => ([], lines).

(** Detectors with the splitters above, and [no_match] for the five whose
    rules the spec leaves open. *)
Definition sample_detectors : Detectors :=
  {| split_atx_heading := spec_split_atx_heading;
     split_blank_line := spec_split_blank_line;
     split_block_quote := no_match;
     split_fenced_code_block := no_match;
     split_indented_code_block := no_match;
     split_link_reference_definition := no_match;
     split_list := no_match;
     split_paragraph := spec_split_paragraph;
     split_setext_heading := spec_split_setext_heading;
     split_table := spec_split_table;
     split_thematic_break := spec_split_thematic_break |}.

(** Formatters that print a section as the given text, whatever its lines,
    and a Blank Line section as the empty text. *)
Definition constant_formatters (atx paragraph other : string)
  : Formatters nat :=
  {| MarkdownATXHeading := fun _ _ _ => atx;
     MarkdownBlankLine := fun _ _ _ => "";
     MarkdownBlockQuote := fun _ _ _ => other;
     MarkdownFencedCodeBlock := fun _ _ _ => other;
     MarkdownIndentedCodeBlock := fun _ _ _ => other;
     MarkdownLinkReferenceDefinition := fun _ _ _ => other;
     MarkdownList := fun _ _ _ => other;
     MarkdownParagraph := fun _ _ _ => paragraph;
     MarkdownSetextHeading := fun _ _ _ => other;
     MarkdownTable := fun _ _ _ => other;
     MarkdownThematicBreak := fun _ _ _ => other |}.


(** ** Notions used to state further properties of the line predicates *)

(** [matches start r w]: the pattern [r] matches the whole of [w], [start]
    telling whether [w] begins at the start of the subject. *)
Inductive matches : bool -> Re.regex -> string -> Prop :=
| matches_empty start : matches start Re.Empty ""
| matches_bol : matches true Re.Bol ""
| matches_class start p c :
    p c = true -> matches start (Re.Class p) (String c "")
| matches_cat start r1 r2 w1 w2 :
    matches start r1 w1 ->
    matches (if Py.truthy w1 then false else start) r2 w2 ->
    matches start (Re.Cat r1 r2) (w1 ++ w2)
| matches_alt_l start r1 r2 w :
    matches start r1 w -> matches start (Re.Alt r1 r2) w
| matches_alt_r start r1 r2 w :
    matches start r2 w -> matches start (Re.Alt r1 r2) w
| matches_star_nil start r : matches start (Re.Star r) ""
| matches_star_cons start r c w1 w2 :
    matches start r (String c w1) ->
    matches false (Re.Star r) w2 ->
    matches start (Re.Star r) (String c (w1 ++ w2)).

(** The list markers: [*], [-], [+], or digits and a dot. *)
Inductive list_marker : string -> Prop :=
| marker_asterisk : list_marker "*"
| marker_dash : list_marker "-"
| marker_plus : list_marker "+"
| marker_number digits :
    digits <> EmptyString ->
    Py.all is_digit digits = true ->
    list_marker (digits ++ ".").

(** A string with its white space taken out. *)
Fixpoint remove_space (s : string) : string :=
  match s with
  | EmptyString => EmptyString
  | String c s' =>
      if Py.isspace c then remove_space s' else String c (remove_space s')
  end.

(** The first character of a line that is not white space. *)
Definition first_char (line : string) : option ascii :=
  match Py.lstrip line with
  | EmptyString => None
  | String c _ => Some c
  end.

(** The characters that the marker predicates look for at the front of a
    line. *)
Definition is_marker_char (c : ascii) : bool :=
  existsb (Ascii.eqb c) ["#"; ">"; "|"; "`"; "~"; "*"; "-"; "+"; "_"]%char
  || is_digit c.

(** A splitter that hands out the first line and keeps it. *)
Definition keep_first : SplitFunc := fun lines => (firstn 1 lines, lines).

(** Detectors whose first splitter is [keep_first]; the others never match. *)
Definition keeping_detectors : Detectors :=
  {| split_atx_heading := keep_first;
     split_blank_line := no_match;
     split_block_quote := no_match;
     split_fenced_code_block := no_match;
     split_indented_code_block := no_match;
     split_link_reference_definition := no_match;
     split_list := no_match;
     split_paragraph := no_match;
     split_setext_heading := no_match;
     split_table := no_match;
     split_thematic_break := no_match |}.

(** ** Facts on the built-ins *)

Example splitlines_examples :
  Py.splitlines "" = [] /\
  Py.splitlines NL = [""] /\
  Py.splitlines ("a" ++ NL ++ NL) = ["a"; ""] /\
  Py.splitlines ("a" ++ NL ++ "b") = ["a"; "b"] /\
  Py.splitlines ("a" ++ String (ascii_of_nat 13) NL ++ "b") = ["a"; "b"].
Proof. repeat split. Qed.

Example strip_split_examples :
  Py.strip "  a b  " = "a b" /\
  Py.split "  a b  - " = ["a"; "b"; "-"] /\
  Py.join "" (Py.split " - - - ") = "---" /\
  Py.str_of_nat 120 = "120".
Proof. repeat split. Qed.

Lemma lstrip_head (s : string) :
  Py.lstrip s = EmptyString \/
  exists c s', Py.lstrip s = String c s' /\ Py.isspace c = false.
Proof.
  induction s as [|c s IH]; simpl.
  - now left.
  - destruct (Py.isspace c) eqn:Hc; [exact IH|].
    right. now exists c, s.
Qed.

Lemma rstrip_keeps_head (c : ascii) (s : string) :
  Py.isspace c = false -> Py.truthy (Py.rstrip (String c s)) = true.
Proof. intros Hc. simpl. now rewrite Hc. Qed.

Lemma blank_lstrip_empty (line : string) :
  Py.truthy (Py.strip line) = false -> Py.lstrip line = EmptyString.
Proof.
  unfold Py.strip. intros Hb.
  destruct (lstrip_head line) as [He | (c & s' & He & Hc)]; [exact He|].
  rewrite He, (rstrip_keeps_head c s' Hc) in Hb. discriminate.
Qed.

Lemma spaceless_lstrip (s : string) : spaceless s = true -> Py.lstrip s = s.
Proof.
  destruct s as [|c s]; simpl; [reflexivity|].
  intros H. apply andb_prop in H as [Hc _].
  apply negb_true_iff in Hc. now rewrite Hc.
Qed.

Lemma spaceless_rstrip (s : string) : spaceless s = true -> Py.rstrip s = s.
Proof.
  induction s as [|c s IH]; simpl; [reflexivity|].
  intros H. apply andb_prop in H as [Hc Hs].
  apply negb_true_iff in Hc. rewrite Hc. simpl. now rewrite (IH Hs).
Qed.

Lemma spaceless_strip (s : string) : spaceless s = true -> Py.strip s = s.
Proof.
  intros H. unfold Py.strip. rewrite (spaceless_lstrip s H).
  now apply spaceless_rstrip.
Qed.

Lemma spaceless_indent (s : string) : spaceless s = true -> get_indent s = 0.
Proof.
  destruct s as [|c s]; simpl; [reflexivity|].
  intros H. apply andb_prop in H as [Hc _].
  apply negb_true_iff in Hc. now rewrite Hc.
Qed.

Lemma append_empty_r (s : string) : (s ++ "")%string = s.
Proof. induction s as [|c s IH]; simpl; [reflexivity | now rewrite IH]. Qed.

Lemma append_assoc (a b c : string) :
  ((a ++ b) ++ c)%string = (a ++ (b ++ c))%string.
Proof. induction a as [|x a IH]; simpl; [reflexivity | now rewrite IH]. Qed.

Lemma rev_string_acc (s acc : string) :
  Py.rev_string acc s = (Py.rev_string "" s ++ acc)%string.
Proof.
  revert acc. induction s as [|c s IH]; intros acc; simpl; [reflexivity|].
  rewrite (IH (String c acc)), (IH (String c "")), append_assoc.
  reflexivity.
Qed.

(** Reading a run without white space adds it to the word being read. *)
Lemma split_from_spaceless (s word : string) :
  spaceless s = true ->
  Py.split_from word s =
  if Py.truthy (Py.rev_string "" word ++ s)
  then [(Py.rev_string "" word ++ s)%string] else [].
Proof.
  revert word. induction s as [|c s IH]; intros word H; simpl.
  - rewrite append_empty_r. destruct word as [|d word]; simpl; [reflexivity|].
    rewrite rev_string_acc. destruct (Py.rev_string "" word); reflexivity.
  - simpl in H. apply andb_prop in H as [Hc Hs].
    apply negb_true_iff in Hc. rewrite Hc, (IH _ Hs). simpl.
    rewrite (rev_string_acc word (String c "")), append_assoc. reflexivity.
Qed.

Lemma split_spaceless (c : ascii) (s : string) :
  spaceless (String c s) = true ->
  Py.join "" (Py.split (String c s)) = String c s.
Proof.
  intros H. unfold Py.split. now rewrite (split_from_spaceless _ "" H).
Qed.

(** ** Facts on the patterns *)

Lemma void_not_nullable (start : bool) (r : Re.regex) :
  void r = true -> Re.nullable start r = false.
Proof.
  induction r; simpl; intros H; try discriminate; try reflexivity.
  - now rewrite (IHr1 H).
  - apply andb_prop in H as [H1 H2]. now rewrite (IHr1 H1), (IHr2 H2).
Qed.

Lemma void_deriv (start : bool) (c : ascii) (r : Re.regex) :
  void r = true -> void (Re.deriv start c r) = true.
Proof.
  induction r; simpl; intros H; try discriminate; try reflexivity.
  - rewrite (void_not_nullable start r1 H), (IHr1 H). reflexivity.
  - apply andb_prop in H as [H1 H2]. now rewrite (IHr1 H1), (IHr2 H2).
Qed.

Lemma void_no_match (s : string) :
  forall start r, void r = true -> Re.match_prefix start r s = false.
Proof.
  induction s as [|c s IH]; intros start r H; simpl;
    rewrite (void_not_nullable start r H); [reflexivity|].
  apply IH, void_deriv, H.
Qed.

(** [^] keeps the list pattern from matching anywhere but at the start. *)
Lemma list_start_anchored (s : string) :
  Re.search_from false LIST_START_REGEX s = false.
Proof.
  induction s as [|c s IH]; [reflexivity|].
  change (Re.search_from false LIST_START_REGEX (String c s))
    with (Re.match_prefix false LIST_START_REGEX (String c s)
          || Re.search_from false LIST_START_REGEX s).
  rewrite IH, orb_false_r.
  change (Re.match_prefix false LIST_START_REGEX (String c s))
    with (Re.nullable false LIST_START_REGEX
          || Re.match_prefix false (Re.deriv false c LIST_START_REGEX) s).
  rewrite void_no_match; reflexivity.
Qed.

Lemma list_start_search (c : ascii) (s : string) :
  Re.search LIST_START_REGEX (String c s) =
  Re.match_prefix false (Re.deriv true c LIST_START_REGEX) s.
Proof.
  unfold Re.search.
  change (Re.search_from true LIST_START_REGEX (String c s))
    with (Re.match_prefix true LIST_START_REGEX (String c s)
          || Re.search_from false LIST_START_REGEX s).
  rewrite list_start_anchored, orb_false_r. reflexivity.
Qed.

(** ** Lines of one repeated character *)

Lemma repeat_spaceless (c : ascii) (n : nat) :
  Py.isspace c = false -> spaceless (Py.repeat (String c "") n) = true.
Proof.
  intros Hc. induction n as [|n IH]; simpl; [reflexivity|].
  unfold spaceless in *. simpl. now rewrite Hc, IH.
Qed.

Lemma repeat_all (c : ascii) (n : nat) :
  Py.all (char_is (String c "")) (Py.repeat (String c "") n) = true.
Proof.
  induction n as [|n IH]; simpl; [reflexivity|].
  rewrite IH. unfold char_is. now rewrite String.eqb_refl.
Qed.

(** ** The line predicates *)

(** The lines the docstrings of [_lines.py] give as examples. *)
Example docstring_lines :
  is_atx_heading_line "#Heading" = true /\
  is_atx_heading_line "# Heading" = true /\
  is_blank_line_line "" = true /\
  is_block_quote_line "> Block Quote" = true /\
  is_fenced_code_block_start_line "```python3" = true /\
  is_fenced_code_block_start_line "~~~markdown" = true /\
  is_indented_code_block_start_line "    There's four spaces before this"
    = true /\
  is_list_start_line "* Unordered List" = true /\
  is_list_start_line "1. Ordered List" = true /\
  is_paragraph_start_line "Just some text" = true /\
  is_setext_underline "---" = true /\
  is_setext_underline "  ==" = true /\
  is_table_start_line "|Table|" = true.
Proof. repeat split. Qed.

(** Lines that miss a predicate by little. *)
Example near_misses :
  is_list_start_line "12.a" = false /\
  is_list_start_line "-x" = false /\
  is_list_start_line "a - b" = false /\
  is_thematic_break_line "--" = false /\
  is_thematic_break_line "-*-" = false /\
  is_thematic_break_line "    ---" = false /\
  is_setext_underline "=-" = false /\
  is_paragraph_start_line "---" = false /\
  is_paragraph_start_line "--" = true.
Proof. repeat split. Qed.

Lemma paragraph_checker_loop_true (checkers : list (string -> bool))
  (line : string) :
  paragraph_checker_loop checkers line = true <->
  Forall (fun line_checker => line_checker line = false) checkers.
Proof.
  induction checkers as [|chk checkers IH]; simpl.
  - split; [constructor | reflexivity].
  - destruct (chk line) eqn:Hchk.
    + split; [discriminate|]. intros H. inversion H; subst. congruence.
    + rewrite IH. split; [now constructor | intros H; now inversion H].
Qed.

Lemma spaceless_not_indented (s : string) :
  spaceless s = true -> is_indented_code_block_start_line s = false.
Proof.
  intros H. unfold is_indented_code_block_start_line.
  rewrite (spaceless_indent s H). apply andb_false_r.
Qed.

(** A line of [=] or of [-] characters, one at least, is a setext
    underline. *)
Lemma repeat_setext_underline (c : ascii) (n : nat) :
  c = "="%char \/ c = "-"%char ->
  is_setext_underline (Py.repeat (String c "") (S n)) = true.
Proof.
  intros Hc.
  assert (Hs : spaceless (Py.repeat (String c "") (S n)) = true)
    by (apply repeat_spaceless; destruct Hc; subst; reflexivity).
  unfold is_setext_underline.
  rewrite (spaceless_not_indented _ Hs), (spaceless_strip _ Hs).
  pose proof (repeat_all c (S n)) as Hall.
  destruct Hc; subst; rewrite Hall; [reflexivity | apply orb_true_r].
Qed.

Section EqualsLine.

Variable t : string.
Local Abbreviation line := (String "=" t).
Hypothesis line_spaceless : spaceless line = true.

Lemma equals_not_indented : is_indented_code_block_start_line line = false.
Proof. exact (spaceless_not_indented line line_spaceless). Qed.

Lemma equals_not_blank : is_blank_line_line line = false.
Proof.
  unfold is_blank_line_line.
  now rewrite (spaceless_strip line line_spaceless).
Qed.

Lemma equals_not_list : is_list_start_line line = false.
Proof.
  unfold is_list_start_line. rewrite list_start_search.
  rewrite void_no_match; [apply andb_false_r | reflexivity].
Qed.

Lemma equals_not_thematic : is_thematic_break_line line = false.
Proof.
  unfold is_thematic_break_line. rewrite equals_not_indented.
  rewrite (split_spaceless _ _ line_spaceless).
  destruct (String.length (String "=" t) <? 3); [reflexivity|].
  unfold THEMATIC_BREAK_CHARACTERS, thematic_symbol_loop.
  rewrite (spaceless_strip _ line_spaceless). reflexivity.
Qed.

Lemma equals_paragraph_start : is_paragraph_start_line line = true.
Proof.
  apply paragraph_checker_loop_true. unfold paragraph_line_checkers.
  repeat match goal with
         | |- Forall _ (_ :: _) => apply Forall_cons
         | |- Forall _ [] => apply Forall_nil
         end.
  - apply equals_not_indented.
  - unfold is_atx_heading_line.
    rewrite (spaceless_lstrip line line_spaceless). apply andb_false_r.
  - apply equals_not_blank.
  - unfold is_block_quote_line.
    rewrite (spaceless_lstrip line line_spaceless). apply andb_false_r.
  - unfold is_fenced_code_block_start_line, fenced_start_loop,
      FENCED_CODE_BLOCK_FENCE_CHARACTERS.
    rewrite (spaceless_strip line line_spaceless). reflexivity.
  - apply equals_not_list.
  - unfold is_table_start_line.
    now rewrite (spaceless_lstrip line line_spaceless).
  - apply equals_not_thematic.
Qed.

End EqualsLine.

(** C6. [is_paragraph_start_line] holds of a line exactly when none of the
    eight predicates it walks through holds of it.  [is_setext_underline] is
    not among them: a line made of [=] characters only is a setext underline
    and a paragraph start at once. *)
Theorem paragraph_start_is_complement :
  (forall line,
      is_paragraph_start_line line = true <->
      is_indented_code_block_start_line line = false /\
      is_atx_heading_line line = false /\
      is_blank_line_line line = false /\
      is_block_quote_line line = false /\
      is_fenced_code_block_start_line line = false /\
      is_list_start_line line = false /\
      is_table_start_line line = false /\
      is_thematic_break_line line = false) /\
  (forall n,
      is_setext_underline (Py.repeat "=" (S n)) = true /\
      is_paragraph_start_line (Py.repeat "=" (S n)) = true) /\
  is_paragraph_start_line "===" = true.
Proof.
  split; [|split].
  - intros line. unfold is_paragraph_start_line.
    rewrite paragraph_checker_loop_true. unfold paragraph_line_checkers.
    split.
    + intros H. repeat (inversion H as [|? ? ? H']; subst; clear H;
                        rename H' into H; split; [assumption|]).
      inversion H; subst. assumption.
    + intros (H1 & H2 & H3 & H4 & H5 & H6 & H7 & H8).
      repeat constructor; assumption.
  - intros n.
    assert (Hs : spaceless (Py.repeat "=" (S n)) = true)
      by (apply repeat_spaceless; reflexivity).
    split.
    + apply (repeat_setext_underline "=" n). now left.
    + exact (equals_paragraph_start (Py.repeat "=" n) Hs).
  - reflexivity.
Qed.

Lemma leading_spaces_indent (line : string) :
  get_indent ("    " ++ line) = 4 + get_indent line.
Proof. reflexivity. Qed.

(** C7. A line opens an indented code block exactly when it is not blank and
    at least four white-space characters lead it.  Such a line is no ATX
    heading, whatever follows the indentation; four leading spaces in front
    of text make a code block start, three do not. *)
Theorem indentation_threshold :
  (forall line,
      is_indented_code_block_start_line line = true <->
      is_blank_line_line line = false /\ 4 <= get_indent line) /\
  (forall line, 4 <= get_indent line -> is_atx_heading_line line = false) /\
  (forall text,
      is_blank_line_line text = false ->
      is_indented_code_block_start_line ("    " ++ text) = true) /\
  (forall c text,
      Py.isspace c = false ->
      get_indent ("    " ++ String c text) = 4 /\
      get_indent ("   " ++ String c text) = 3 /\
      is_indented_code_block_start_line ("   " ++ String c text) = false).
Proof.
  split; [|split; [|split]].
  - intros line. unfold is_indented_code_block_start_line, is_blank_line_line.
    rewrite andb_true_iff, negb_false_iff, Nat.leb_le. reflexivity.
  - intros line Hi.
    unfold is_atx_heading_line, is_indented_code_block_start_line.
    destruct (Py.truthy (Py.strip line)) eqn:Hb.
    + apply Nat.leb_le in Hi. now rewrite Hi.
    + now rewrite (blank_lstrip_empty line Hb).
  - intros text Hb. unfold is_indented_code_block_start_line.
    unfold is_blank_line_line in Hb. apply negb_false_iff in Hb.
    rewrite leading_spaces_indent. unfold Py.strip in *. simpl.
    now rewrite Hb.
  - intros c text Hc. unfold is_indented_code_block_start_line. simpl.
    rewrite Hc. repeat split. apply andb_false_r.
Qed.

Lemma indentation_threshold_witness :
  is_atx_heading_line "    # Heading" = false /\
  is_indented_code_block_start_line "    code" = true /\
  is_indented_code_block_start_line "   text" = false.
Proof.
  destruct indentation_threshold as (_ & Hatx & Hfour & Hthree).
  split; [|split].
  - apply (Hatx "    # Heading"). simpl. lia.
  - apply (Hfour "code"). reflexivity.
  - apply (Hthree "t"%char "ext"). reflexivity.
Defined.

(** C10. The predicates overlap: [- - -] and [* * *] are list starts and
    thematic breaks at once. *)
Theorem list_start_and_thematic_break_overlap :
  (is_list_start_line "- - -" = true /\
   is_thematic_break_line "- - -" = true) /\
  (is_list_start_line "* * *" = true /\
   is_thematic_break_line "* * *" = true) /\
  (exists line,
      is_list_start_line line = true /\ is_thematic_break_line line = true).
Proof.
  repeat split; try reflexivity.
  exists "- - -". split; reflexivity.
Qed.

Lemma paragraph_start_is_complement_witness :
  is_paragraph_start_line "Just some text" = true.
Proof.
  apply (proj1 paragraph_start_is_complement "Just some text").
  repeat split.
Defined.

(** ** The splitter loop *)

Section SplitterLoop.

Implicit Types (splitters : list (MarkdownSectionEnum * SplitFunc))
  (lines section_content : list string) (f : SplitFunc).

Lemma for_splitters_cons splitters section_type f lines :
  for_splitters ((section_type, f) :: splitters) lines =
  match fst (f lines) with
  | _ :: _ => Some (section_type, fst (f lines), snd (f lines))
  | [] => for_splitters splitters (snd (f lines))
  end.
Proof. simpl. destruct (f lines) as [c r]. reflexivity. Qed.

Lemma for_splitters_content splitters :
  forall lines section_type section_content rest,
    for_splitters splitters lines = Some (section_type, section_content, rest) ->
    section_content <> [].
Proof.
  induction splitters as [|[ty f] splitters IH]; intros lines ty' c r H.
  - discriminate.
  - rewrite for_splitters_cons in H.
    destruct (fst (f lines)) as [|x xs] eqn:Hc.
    + exact (IH _ _ _ _ H).
    + inversion H; subst. discriminate.
Qed.

(** The first splitter of the list to consume lines decides. *)
Lemma for_splitters_first pre section_type f post lines section_content rest :
  (forall section_type' g, In (section_type', g) pre -> g lines = ([], lines)) ->
  f lines = (section_content, rest) ->
  section_content <> [] ->
  for_splitters (pre ++ (section_type, f) :: post) lines =
  Some (section_type, section_content, rest).
Proof.
  intros Hpre Hf Hc. induction pre as [|[ty' g] pre IH]; simpl app.
  - rewrite for_splitters_cons, Hf. simpl.
    destruct section_content; [contradiction | reflexivity].
  - rewrite for_splitters_cons, (Hpre ty' g (or_introl eq_refl)). simpl.
    apply IH. intros ty'' h Hin. apply (Hpre ty'' h). now right.
Qed.

(** Conversely, when unmatched splitters leave the lines alone, the splitter
    that decided is the first that consumed some. *)
Lemma for_splitters_Some splitters :
  (forall section_type f lines,
      In (section_type, f) splitters ->
      fst (f lines) = [] -> snd (f lines) = lines) ->
  forall lines section_type section_content rest,
    for_splitters splitters lines = Some (section_type, section_content, rest) ->
    exists pre f post,
      splitters = pre ++ (section_type, f) :: post /\
      f lines = (section_content, rest) /\
      forall section_type' g,
        In (section_type', g) pre -> g lines = ([], lines).
Proof.
  induction splitters as [|[ty f] splitters IH]; intros Hun lines ty' c r H.
  - discriminate.
  - rewrite for_splitters_cons in H.
    destruct (fst (f lines)) as [|x xs] eqn:Hc.
    + rewrite (Hun ty f lines (or_introl eq_refl) Hc) in H.
      destruct (IH (fun t g l Hin => Hun t g l (or_intror Hin)) _ _ _ _ H)
        as (pre & g & post & -> & Hg & Hpre).
      exists ((ty, f) :: pre), g, post. repeat split; [exact Hg|].
      intros ty'' h [Heq | Hin]; [|exact (Hpre _ _ Hin)].
      inversion Heq; subst. rewrite (surjective_pairing (h lines)), Hc.
      now rewrite (Hun ty'' h lines (or_introl eq_refl) Hc).
    + inversion H; subst. exists [], f, splitters. repeat split.
      * rewrite <- Hc. apply surjective_pairing.
      * intros ? ? [].
Qed.

Lemma for_splitters_None splitters :
  (forall section_type f lines,
      In (section_type, f) splitters ->
      fst (f lines) = [] -> snd (f lines) = lines) ->
  forall lines,
    for_splitters splitters lines = None <->
    (forall section_type f, In (section_type, f) splitters -> fst (f lines) = []).
Proof.
  induction splitters as [|[ty f] splitters IH]; intros Hun lines.
  - split; [intros _ ? ? [] | reflexivity].
  - rewrite for_splitters_cons. split.
    + intros H ty' g [Heq | Hin].
      * inversion Heq; subst. destruct (fst (g lines)); [reflexivity | discriminate].
      * destruct (fst (f lines)) eqn:Hc; [|discriminate].
        rewrite (Hun ty f lines (or_introl eq_refl) Hc) in H.
        exact (proj1 (IH (fun t h l Hi => Hun t h l (or_intror Hi)) lines)
                     H ty' g Hin).
    + intros H. rewrite (H ty f (or_introl eq_refl)).
      rewrite (Hun ty f lines (or_introl eq_refl) (H ty f (or_introl eq_refl))).
      apply IH; [intros t h l Hi; apply (Hun t h l); now right|].
      intros t h Hi. apply (H t h). now right.
Qed.

(** Splitters that cut their input in two make the loop do so. *)
Lemma for_splitters_partition splitters :
  (forall section_type f, In (section_type, f) splitters -> splits_input f) ->
  forall lines section_type section_content rest,
    for_splitters splitters lines = Some (section_type, section_content, rest) ->
    section_content ++ rest = lines.
Proof.
  induction splitters as [|[ty f] splitters IH]; intros Hp lines ty' c r H.
  - discriminate.
  - rewrite for_splitters_cons in H.
    pose proof (Hp ty f (or_introl eq_refl) lines) as Hf.
    destruct (fst (f lines)) as [|x xs] eqn:Hc.
    + simpl in Hf. rewrite Hf in H.
      exact (IH (fun t g Hi => Hp t g (or_intror Hi)) _ _ _ _ H).
    + inversion H; subst. exact Hf.
Qed.

End SplitterLoop.

(** ** The classification loop *)

Lemma classified_lines_app (secs : list section) (sec : section) :
  classified_lines (secs ++ [sec]) = classified_lines secs + List.length (snd sec).
Proof.
  unfold classified_lines. rewrite map_app, list_sum_app. simpl. lia.
Qed.

Lemma section_lines_app (secs : list section) (sec : section) :
  section_lines (secs ++ [sec]) = section_lines secs ++ snd sec.
Proof.
  unfold section_lines. rewrite map_app, concat_app. simpl.
  now rewrite app_nil_r.
Qed.

Lemma classified_lines_length (secs : list section) :
  classified_lines secs = List.length (section_lines secs).
Proof.
  induction secs as [|sec secs IH]; [reflexivity|].
  unfold classified_lines, section_lines in *. simpl.
  rewrite length_app, IH. reflexivity.
Qed.

Section Classification.

Variable D : Detectors.

Lemma loop_body_Return (st st' : loop_state) :
  loop_body D st = Return st' ->
  exists section_type section_content,
    for_splitters (SPLITTERS D) (remaining_lines st) =
      Some (section_type, section_content, remaining_lines st') /\
    sections st' = sections st ++ [(section_type, section_content)] /\
    current_line st' = current_line st + List.length section_content.
Proof.
  unfold loop_body.
  destruct (for_splitters (SPLITTERS D) (remaining_lines st))
    as [[[ty c] r]|]; [|discriminate].
  intros H. inversion H; subst; clear H. simpl. now exists ty, c.
Qed.

Lemma loop_body_stall (st : loop_state) :
  for_splitters (SPLITTERS D) (remaining_lines st) = None ->
  loop_body D st = Raise (RuntimeError (stall_message (sections st))).
Proof. unfold loop_body. now intros ->. Qed.

Lemma loop_body_fuel (st : loop_state) : loop_body D st <> OutOfFuel.
Proof.
  unfold loop_body.
  destruct (for_splitters (SPLITTERS D) (remaining_lines st))
    as [[[ty c] r]|]; discriminate.
Qed.

Lemma while_remaining_done (fuel : nat) (st : loop_state) :
  remaining_lines st = [] -> while_remaining D fuel st = Return st.
Proof. intros H. destruct fuel; simpl; now rewrite H. Qed.

Lemma while_remaining_turn (fuel : nat) (st : loop_state) :
  remaining_lines st <> [] ->
  while_remaining D (S fuel) st =
  match loop_body D st with
  | Return st' => while_remaining D fuel st'
  | Raise e => Raise e
  | OutOfFuel => OutOfFuel
  end.
Proof.
  intros H. simpl. destruct (remaining_lines st); [contradiction | reflexivity].
Qed.

(** The line counter is one ahead of the lines classified so far. *)
Lemma reachable_current_line (lines : list string) (st : loop_state) :
  reachable D lines st ->
  current_line st = classified_lines (sections st) + 1.
Proof.
  induction 1 as [|st st' _ IH _ Hbody]; [reflexivity|].
  apply loop_body_Return in Hbody as (ty & c & _ & -> & ->).
  rewrite classified_lines_app, IH. simpl. lia.
Qed.

(** No section record is empty. *)
Lemma reachable_sections_nonempty (lines : list string) (st : loop_state) :
  reachable D lines st ->
  Forall (fun sec : section => snd sec <> []) (sections st).
Proof.
  induction 1 as [|st st' _ IH _ Hbody]; [constructor|].
  apply loop_body_Return in Hbody as (ty & c & Hfor & -> & _).
  apply Forall_app. split; [exact IH|]. constructor; [|constructor].
  exact (for_splitters_content _ _ _ _ _ Hfor).
Qed.

(** What the loop returns is a state it went through, with no line left. *)
Lemma while_remaining_reachable (lines : list string) (fuel : nat) :
  forall st st',
    reachable D lines st ->
    while_remaining D fuel st = Return st' ->
    reachable D lines st' /\ remaining_lines st' = [].
Proof.
  induction fuel as [|fuel IH]; intros st st' Hr Hw.
  - simpl in Hw. destruct (remaining_lines st) eqn:Hrem; [|discriminate].
    inversion Hw; subst. now split.
  - destruct (remaining_lines st) as [|l ls] eqn:Hrem.
    + rewrite (while_remaining_done _ _ Hrem) in Hw. inversion Hw; subst.
      now split.
    + rewrite while_remaining_turn in Hw by (rewrite Hrem; discriminate).
      destruct (loop_body D st) as [st1| |] eqn:Hbody; try discriminate.
      apply (IH st1 st'); [|exact Hw].
      apply (reach_turn D lines st st1 Hr); [rewrite Hrem; discriminate|].
      exact Hbody.
Qed.

(** More fuel does not change a run that had enough. *)
Lemma while_remaining_fuel (fuel : nat) :
  forall fuel' st,
    fuel <= fuel' ->
    while_remaining D fuel st <> OutOfFuel ->
    while_remaining D fuel' st = while_remaining D fuel st.
Proof.
  induction fuel as [|fuel IH]; intros fuel' st Hle Hw.
  - simpl in *. destruct (remaining_lines st) eqn:Hrem; [|contradiction].
    now apply while_remaining_done.
  - destruct fuel' as [|fuel']; [lia|].
    destruct (remaining_lines st) as [|l ls] eqn:Hrem.
    + now rewrite !while_remaining_done.
    + rewrite !while_remaining_turn in * by (rewrite Hrem; discriminate).
      destruct (loop_body D st) as [st1| |]; try reflexivity.
      apply IH; [lia | exact Hw].
Qed.

(** A state gone through after [k] turns is where a run with [k] turns less
    to go picks up. *)
Lemma reachable_classify (lines : list string) (st : loop_state) :
  reachable D lines st ->
  forall fuel,
    List.length (sections st) <= fuel ->
    classify D fuel lines =
    while_remaining D (fuel - List.length (sections st)) st.
Proof.
  induction 1 as [|st st' _ IH Hrem Hbody]; intros fuel Hle.
  - simpl. now rewrite Nat.sub_0_r.
  - pose proof Hbody as Hb.
    apply loop_body_Return in Hb as (ty & c & _ & Hsec & _).
    rewrite Hsec, length_app in *. simpl in *.
    rewrite (IH fuel) by lia.
    replace (fuel - List.length (sections st))
      with (S (fuel - (List.length (sections st) + 1))) by lia.
    rewrite (while_remaining_turn _ _ Hrem), Hbody. reflexivity.
Qed.

Section Partition.

Hypothesis splitters_partition : partition_contract D.

Lemma loop_body_partition (st st' : loop_state) :
  loop_body D st = Return st' ->
  exists section_content,
    section_content <> [] /\
    remaining_lines st = section_content ++ remaining_lines st' /\
    section_lines (sections st') = section_lines (sections st) ++ section_content.
Proof.
  intros Hbody.
  apply loop_body_Return in Hbody as (ty & c & Hfor & Hsec & _).
  exists c. split; [exact (for_splitters_content _ _ _ _ _ Hfor)|].
  split.
  - symmetry. exact (for_splitters_partition _ splitters_partition _ _ _ _ Hfor).
  - now rewrite Hsec, section_lines_app.
Qed.

(** The loop invariant: classified lines, then the lines left, make up the
    document. *)
Lemma reachable_partition (lines : list string) (st : loop_state) :
  reachable D lines st ->
  section_lines (sections st) ++ remaining_lines st = lines.
Proof.
  induction 1 as [|st st' _ IH _ Hbody]; [reflexivity|].
  apply loop_body_partition in Hbody as (c & _ & Hrem & ->).
  now rewrite <- app_assoc, <- Hrem.
Qed.

(** Every turn takes at least one line, so one turn per line is enough. *)
Lemma while_remaining_terminates (fuel : nat) :
  forall st,
    List.length (remaining_lines st) <= fuel ->
    while_remaining D fuel st <> OutOfFuel.
Proof.
  induction fuel as [|fuel IH]; intros st Hle.
  - destruct (remaining_lines st) eqn:Hrem; [|simpl in Hle; lia].
    now rewrite while_remaining_done.
  - destruct (remaining_lines st) as [|l ls] eqn:Hrem.
    + now rewrite while_remaining_done.
    + rewrite while_remaining_turn by (rewrite Hrem; discriminate).
      destruct (loop_body D st) as [st1| |] eqn:Hbody; try discriminate.
      * apply IH.
        apply loop_body_partition in Hbody as (c & Hc & Hsplit & _).
        rewrite Hrem in Hsplit.
        apply (f_equal (@List.length string)) in Hsplit.
        rewrite length_app in Hsplit. simpl in *.
        destruct c; [contradiction|]. simpl in *. lia.
      * destruct (loop_body_fuel st Hbody).
Qed.

End Partition.

End Classification.

(** ** The sample detectors keep the contracts *)

Lemma span_lines_splits (p : string -> bool) : splits_input (span_lines p).
Proof.
  intros lines. induction lines as [|line lines IH]; simpl; [reflexivity|].
  destruct (p line); [|reflexivity].
  destruct (span_lines p lines) as [run rest]. simpl in *. now rewrite IH.
Qed.

Lemma one_line_splits (p : string -> bool) : splits_input (one_line p).
Proof.
  intros [|line lines]; simpl; [reflexivity|]. now destruct (p line).
Qed.

Lemma setext_run_splits (lines : list string) :
  forall heading rest,
    setext_run lines = Some (heading, rest) -> heading ++ rest = lines.
Proof.
  induction lines as [|l1 lines IH]; intros heading rest H; [discriminate|].
  simpl in H. destruct lines as [|l2 lines']; [discriminate|].
  destruct (is_paragraph_start_line l1); [|discriminate].
  destruct (is_setext_underline l2).
  - now inversion H.
  - destruct (setext_run (l2 :: lines')) as [[h r]|]; [|discriminate].
    inversion H; subst. simpl. f_equal. now apply IH.
Qed.

Lemma spec_split_setext_heading_splits : splits_input spec_split_setext_heading.
Proof.
  intros lines. unfold spec_split_setext_heading.
  destruct (setext_run lines) as [[h r]|] eqn:H; [|reflexivity].
  exact (setext_run_splits lines h r H).
Qed.

Lemma sample_partition : partition_contract sample_detectors.
Proof.
  intros ty f Hin. simpl in Hin.
  repeat (destruct Hin as [Hin | Hin];
          [inversion Hin; subst;
           first [ apply span_lines_splits | apply one_line_splits
                 | apply spec_split_setext_heading_splits
                 | intros lines; reflexivity ] |]).
  destruct Hin.
Qed.

Lemma partition_unmatched_unchanged (D : Detectors) :
  partition_contract D -> unmatched_unchanged D.
Proof.
  intros Hp ty f lines Hin Hc. pose proof (Hp ty f Hin lines) as H.
  now rewrite Hc in H.
Qed.

Lemma sample_setext : setext_contract sample_detectors.
Proof.
  intros l1 l2 rest H1 H2. simpl. unfold spec_split_setext_heading. simpl.
  now rewrite H1, H2.
Qed.

(** ** Classification: the claims *)

(** C2. With splitters that each return their input cut in two, the
    classification loop keeps, turn after turn, the classified lines followed
    by the remaining ones equal to the lines of the document, and the two
    counts adding up to the document's; it comes to an end within one turn
    per line; and the sections it returns hold the document's lines in order,
    each once. *)
Theorem classification_complete (D : Detectors) (text : string) :
  partition_contract D ->
  (forall st,
      reachable D (Py.splitlines text) st ->
      section_lines (sections st) ++ remaining_lines st = Py.splitlines text /\
      classified_lines (sections st) + List.length (remaining_lines st)
        = List.length (Py.splitlines text)) /\
  (forall fuel st,
      classify D fuel (Py.splitlines text) = Return st ->
      section_lines (sections st) = Py.splitlines text /\
      classified_lines (sections st) = List.length (Py.splitlines text)) /\
  (forall fuel,
      List.length (Py.splitlines text) <= fuel ->
      classify D fuel (Py.splitlines text) <> OutOfFuel).
Proof.
  intros Hp.
  assert (Hinv : forall st,
             reachable D (Py.splitlines text) st ->
             section_lines (sections st) ++ remaining_lines st
               = Py.splitlines text /\
             classified_lines (sections st) + List.length (remaining_lines st)
               = List.length (Py.splitlines text)).
  { intros st Hr. pose proof (reachable_partition D Hp _ _ Hr) as Heq.
    split; [exact Heq|].
    rewrite classified_lines_length, <- length_app. now rewrite Heq. }
  split; [exact Hinv | split].
  - intros fuel st Hc.
    destruct (while_remaining_reachable D _ fuel _ st
                (reach_start D (Py.splitlines text)) Hc) as [Hr Hrem].
    destruct (Hinv st Hr) as [Heq Hlen]. rewrite Hrem in *.
    rewrite app_nil_r in Heq. simpl in Hlen. split; [exact Heq | lia].
  - intros fuel Hle. apply (while_remaining_terminates D Hp). exact Hle.
Qed.

Lemma classification_complete_witness :
  exists st,
    classify sample_detectors 3 (Py.splitlines ("a" ++ NL ++ NL ++ "b"))
      = Return st /\
    section_lines (sections st) = ["a"; ""; "b"].
Proof.
  eexists. split; [reflexivity|].
  exact (proj1 (proj1 (proj2 (classification_complete sample_detectors
                                ("a" ++ NL ++ NL ++ "b") sample_partition))
                      3 _ eq_refl)).
Defined.

(** C8. When the loop stands at lines that no splitter takes, reformatting
    raises [RuntimeError]; the message names the line after the ones
    classified so far, which is the line the loop's counter stands at; and
    the caller of [reformat_markdown_text] gets the same exception. *)
Theorem classification_failure {Number : Type} (D : Detectors)
  (F : Formatters Number) (text : string) (width : Number) (st : loop_state) :
  reachable D (Py.splitlines text) st ->
  remaining_lines st <> [] ->
  for_splitters (SPLITTERS D) (remaining_lines st) = None ->
  forall fuel,
    List.length (sections st) < fuel ->
    _reformat_markdown_text D F fuel text width =
      Raise (RuntimeError
               ("Could not determine section type on line "
                ++ Py.str_of_nat (classified_lines (sections st) + 1))) /\
    reformat_markdown_text D F fuel text width =
      _reformat_markdown_text D F fuel text width /\
    current_line st = classified_lines (sections st) + 1.
Proof.
  intros Hr Hrem Hnone fuel Hfuel.
  assert (H : _reformat_markdown_text D F fuel text width =
              Raise (RuntimeError (stall_message (sections st)))).
  { unfold _reformat_markdown_text.
    rewrite (reachable_classify D _ st Hr fuel) by lia.
    replace (fuel - List.length (sections st))
      with (S (fuel - List.length (sections st) - 1)) by lia.
    rewrite (while_remaining_turn D _ _ Hrem), (loop_body_stall D st Hnone).
    reflexivity. }
  split; [exact H | split].
  - unfold reformat_markdown_text. now rewrite H.
  - exact (reachable_current_line D _ st Hr).
Qed.

Lemma classification_failure_witness :
  _reformat_markdown_text sample_detectors (constant_formatters "h" "p" "x")
    3 ("a" ++ NL ++ NL ++ "> quote") 88
  = Raise (RuntimeError "Could not determine section type on line 3").
Proof.
  refine (proj1 (classification_failure sample_detectors
                   (constant_formatters "h" "p" "x")
                   ("a" ++ NL ++ NL ++ "> quote") 88
                   {| sections := [(PARAGRAPH, ["a"]); (BLANK_LINE, [""])];
                      current_line := 3;
                      remaining_lines := ["> quote"] |}
                   _ _ _ 3 _)).
  - apply (reach_turn _ _ {| sections := [(PARAGRAPH, ["a"])];
                             current_line := 2;
                             remaining_lines := [""; "> quote"] |});
      [|discriminate | reflexivity].
    apply (reach_turn _ _ {| sections := [];
                             current_line := 1;
                             remaining_lines := ["a"; ""; "> quote"] |});
      [|discriminate | reflexivity].
    apply reach_start.
  - discriminate.
  - reflexivity.
  - simpl. lia.
Defined.

(** One splitter of the list tried on the lines at hand: either it takes
    some, which settles the goal by [tac], or the loop goes on. *)
Ltac try_splitter Hun tac :=
  lazymatch goal with
  | |- context [for_splitters ((?ty, ?g) :: _) ?lines] =>
      let Hc := fresh "Hc" in
      rewrite (for_splitters_cons _ ty g lines);
      destruct (fst (g lines)) eqn:Hc;
      [ rewrite (Hun ty g lines) by (simpl; auto 12 || exact Hc)
      | tac ty g Hc ]
  end.

(** C5. The loop takes the first splitter of [SPLITTERS] that consumes lines;
    the setext splitter stands ahead of the paragraph and thematic-break
    ones, the indented-code splitter ahead of the list and paragraph ones.
    So on a paragraph-start line followed by a line of [-] characters, where
    the setext splitter takes both lines, the section is never given to the
    paragraph or the thematic-break splitter, and is the setext heading made
    of the two lines when no splitter ahead of the setext one takes any. *)
Theorem setext_priority (D : Detectors) :
  (forall pre section_type f post lines section_content rest,
      SPLITTERS D = pre ++ (section_type, f) :: post ->
      (forall section_type' g,
          In (section_type', g) pre -> g lines = ([], lines)) ->
      f lines = (section_content, rest) ->
      section_content <> [] ->
      for_splitters (SPLITTERS D) lines =
        Some (section_type, section_content, rest)) /\
  (map fst (SPLITTERS D) =
     [ATX_HEADING; BLANK_LINE; BLOCK_QUOTE; FENCED_CODE_BLOCK;
      INDENTED_CODE_BLOCK; LINK_REFERENCE_DEFINITION; LIST; SETEXT_HEADING;
      PARAGRAPH; TABLE; THEMATIC_BREAK] /\
   In (SETEXT_HEADING, split_setext_heading D)
      (before PARAGRAPH (SPLITTERS D)) /\
   In (SETEXT_HEADING, split_setext_heading D)
      (before THEMATIC_BREAK (SPLITTERS D)) /\
   In (INDENTED_CODE_BLOCK, split_indented_code_block D)
      (before LIST (SPLITTERS D)) /\
   In (INDENTED_CODE_BLOCK, split_indented_code_block D)
      (before PARAGRAPH (SPLITTERS D))) /\
  (unmatched_unchanged D ->
   setext_contract D ->
   forall l1 n rest,
     is_paragraph_start_line l1 = true ->
     exists section_type section_content rest',
       for_splitters (SPLITTERS D) (l1 :: Py.repeat "-" (S n) :: rest) =
         Some (section_type, section_content, rest') /\
       section_type <> PARAGRAPH /\
       section_type <> THEMATIC_BREAK /\
       ((forall section_type' g,
            In (section_type', g) (before SETEXT_HEADING (SPLITTERS D)) ->
            fst (g (l1 :: Py.repeat "-" (S n) :: rest)) = []) ->
        section_type = SETEXT_HEADING /\
        section_content = [l1; Py.repeat "-" (S n)] /\
        rest' = rest)).
Proof.
  split; [|split].
  - intros pre ty f post lines c r -> Hpre Hf Hc.
    now apply for_splitters_first.
  - repeat split; simpl; auto 12.
  - intros Hun Hsetext l1 n rest Hl1.
    pose proof (Hsetext l1 (Py.repeat "-" (S n)) rest Hl1
                  (repeat_setext_underline "-" n (or_intror eq_refl)))
      as Hsplit.
    set (lines := l1 :: Py.repeat "-" (S n) :: rest) in *.
    assert (Hearly : forall ty g x xs,
               In (ty, g) (before SETEXT_HEADING (SPLITTERS D)) ->
               fst (g lines) = x :: xs ->
               exists section_type section_content rest',
                 Some (ty, x :: xs, snd (g lines)) =
                   Some (section_type, section_content, rest') /\
                 section_type <> PARAGRAPH /\
                 section_type <> THEMATIC_BREAK /\
                 ((forall section_type' g',
                      In (section_type', g')
                         (before SETEXT_HEADING (SPLITTERS D)) ->
                      fst (g' lines) = []) ->
                  section_type = SETEXT_HEADING /\
                  section_content = [l1; Py.repeat "-" (S n)] /\
                  rest' = rest)).
    { intros ty g x xs Hin Hc. exists ty, (x :: xs), (snd (g lines)).
      split; [reflexivity|].
      split; [|split].
      - simpl in Hin. intuition congruence.
      - simpl in Hin. intuition congruence.
      - intros Hnone. rewrite (Hnone ty g Hin) in Hc. discriminate. }
    unfold SPLITTERS at 1.
    do 7 try_splitter Hun
         ltac:(fun ty g Hc => apply (Hearly ty g _ _); [simpl; auto 12 | exact Hc]).
    rewrite for_splitters_cons, Hsplit. simpl.
    exists SETEXT_HEADING, [l1; Py.repeat "-" (S n)], rest.
    repeat split; discriminate.
Qed.

Lemma setext_priority_witness :
  exists section_type section_content rest',
    for_splitters (SPLITTERS sample_detectors) ["Heading"; "---"; "text"] =
      Some (section_type, section_content, rest') /\
    section_type <> PARAGRAPH /\ section_type <> THEMATIC_BREAK.
Proof.
  destruct (proj2 (proj2 (setext_priority sample_detectors))
              (partition_unmatched_unchanged _ sample_partition)
              sample_setext "Heading" 2 ["text"] eq_refl)
    as (ty & c & r & Hfor & Hp & Ht & _).
  now exists ty, c, r.
Defined.

(** ** The rendering loop *)

Lemma drop_trailing_blank_cons (f : formatter) (fs : list formatter) :
  drop_trailing_blank (f :: fs) =
  match drop_trailing_blank fs with
  | [] => if is_blank_formatter f then [] else [f]
  | kept => f :: kept
  end.
Proof. reflexivity. Qed.

(** What the loop has emitted at its end: what it had emitted at the start,
    then -- if a section other than a blank one is still to come -- the
    buffered blank formatters and the remaining sections up to the last one
    that is not blank. *)
Lemma render_loop_formatters (secs : list section) :
  forall rs,
    formatters (render_loop rs secs) =
    formatters rs ++
    match drop_trailing_blank (annotate (offset rs) secs) with
    | [] => []
    | kept => current_blank_lines rs ++ kept
    end.
Proof.
  induction secs as [|[ty c] secs IH]; intros rs.
  - simpl. now rewrite app_nil_r.
  - change (render_loop rs ((ty, c) :: secs))
      with (render_loop (render_body rs (ty, c)) secs).
    rewrite IH. unfold render_body.
    change (annotate (offset rs) ((ty, c) :: secs))
      with ({| f_type := ty; f_offset := offset rs; f_content := c |}
              :: annotate (offset rs + List.length c) secs).
    rewrite drop_trailing_blank_cons. unfold is_blank_formatter. simpl f_type.
    destruct (MarkdownSectionEnum_eq_dec ty BLANK_LINE) as [Hb | Hb]; simpl;
      destruct (drop_trailing_blank (annotate (offset rs + List.length c) secs));
      rewrite <- ?app_assoc; reflexivity.
Qed.

Lemma annotate_app (pre secs : list section) :
  forall offset,
    annotate offset (pre ++ secs) =
    annotate offset pre ++ annotate (offset + classified_lines pre) secs.
Proof.
  induction pre as [|[ty c] pre IH]; intros offset; simpl.
  - now rewrite Nat.add_0_r.
  - rewrite IH. unfold classified_lines. simpl.
    now rewrite Nat.add_assoc.
Qed.

Lemma annotate_blank (post : list section) :
  forall offset,
    forallb is_blank_section post = true ->
    forallb is_blank_formatter (annotate offset post) = true.
Proof.
  induction post as [|[ty c] post IH]; intros offset H; [reflexivity|].
  simpl in *. apply andb_prop in H as [Hb Hpost].
  unfold is_blank_formatter, is_blank_section in *. simpl in *.
  rewrite Hb. now apply IH.
Qed.

Lemma drop_trailing_blank_all (fs : list formatter) :
  forallb is_blank_formatter fs = true -> drop_trailing_blank fs = [].
Proof.
  induction fs as [|f fs IH]; [reflexivity|]. simpl.
  intros H. apply andb_prop in H as [Hf Hfs]. now rewrite (IH Hfs), Hf.
Qed.

Lemma drop_trailing_blank_app (fs post : list formatter) :
  forallb is_blank_formatter post = true ->
  drop_trailing_blank (fs ++ post) = drop_trailing_blank fs.
Proof.
  intros H. induction fs as [|f fs IH]; simpl.
  - now apply drop_trailing_blank_all.
  - now rewrite IH.
Qed.

Lemma drop_trailing_blank_keeps (pre fs : list formatter) (f : formatter) :
  is_blank_formatter f = false ->
  drop_trailing_blank (pre ++ f :: fs) = pre ++ drop_trailing_blank (f :: fs).
Proof.
  intros Hf. induction pre as [|g pre IH]; [reflexivity|].
  simpl app. rewrite drop_trailing_blank_cons, IH.
  rewrite drop_trailing_blank_cons, Hf.
  destruct pre; simpl; destruct (drop_trailing_blank fs); reflexivity.
Qed.

(** The last formatter kept is not a blank one. *)
Lemma drop_trailing_blank_last (fs kept : list formatter) (f : formatter) :
  drop_trailing_blank fs = kept ++ [f] -> is_blank_formatter f = false.
Proof.
  revert kept. induction fs as [|g fs IH]; intros kept H.
  - destruct kept; discriminate.
  - rewrite drop_trailing_blank_cons in H.
    destruct (drop_trailing_blank fs) as [|k ks] eqn:Hd.
    + destruct (is_blank_formatter g) eqn:Hg.
      * destruct kept; discriminate.
      * destruct kept as [|k' [|k'' kept]]; try discriminate.
        now inversion H; subst.
    + destruct kept as [|k' kept].
      * discriminate.
      * inversion H; subst. exact (IH kept H2).
Qed.

Lemma drop_trailing_blank_In (fs : list formatter) (f : formatter) :
  In f (drop_trailing_blank fs) -> In f fs.
Proof.
  induction fs as [|g fs IH]; [intros []|].
  rewrite drop_trailing_blank_cons.
  destruct (drop_trailing_blank fs) as [|k ks].
  - destruct (is_blank_formatter g); [intros [] | intros [<- | []]; now left].
  - intros [<- | Hin]; [now left | right; now apply IH].
Qed.

Lemma annotate_In (secs : list section) (f : formatter) :
  forall offset,
    In f (annotate offset secs) -> In (f_type f, f_content f) secs.
Proof.
  induction secs as [|[ty c] secs IH]; intros offset; [intros []|].
  simpl. intros [<- | Hin]; [now left | right; exact (IH _ Hin)].
Qed.

(** From an empty start, the loop emits the section records up to the last
    one that is not blank. *)
Lemma render_loop_emits (secs : list section) :
  formatters (render_loop render_start secs)
    = drop_trailing_blank (annotate 0 secs).
Proof.
  rewrite render_loop_formatters. simpl.
  now destruct (drop_trailing_blank (annotate 0 secs)).
Qed.

(** C4, as the code has it.  The rendering loop emits the section records in
    order, each with its offset, up to the last one that is not a Blank Line
    record.  So the list emitted never ends with a Blank Line record, and
    blank sections after the last other section leave no trace in the list
    or the text; a blank run ahead of the first other section, though, is
    emitted in front of it. *)
Theorem blank_run_placement {Number : Type} (F : Formatters Number)
  (secs : list section) :
  formatters (render_loop render_start secs)
    = drop_trailing_blank (annotate 0 secs) /\
  (forall emitted f,
      formatters (render_loop render_start secs) = emitted ++ [f] ->
      f_type f <> BLANK_LINE) /\
  (forall post,
      forallb is_blank_section post = true ->
      formatters (render_loop render_start (secs ++ post))
        = formatters (render_loop render_start secs) /\
      forall width, render F (secs ++ post) width = render F secs width) /\
  (forall pre section_type section_content secs',
      secs = pre ++ (section_type, section_content) :: secs' ->
      section_type <> BLANK_LINE ->
      formatters (render_loop render_start secs)
        = annotate 0 pre
          ++ drop_trailing_blank
               (annotate (classified_lines pre)
                         ((section_type, section_content) :: secs'))).
Proof.
  pose proof render_loop_emits as Hall.
  split; [apply Hall | split; [|split]].
  - intros emitted f H. rewrite Hall in H.
    apply drop_trailing_blank_last in H. unfold is_blank_formatter in H.
    now destruct (MarkdownSectionEnum_eq_dec (f_type f) BLANK_LINE).
  - intros post Hpost.
    assert (Heq : formatters (render_loop render_start (secs ++ post))
                  = formatters (render_loop render_start secs)).
    { rewrite !Hall, annotate_app.
      apply drop_trailing_blank_app, annotate_blank, Hpost. }
    split; [exact Heq|]. intros width. unfold render.
    fold render_start. now rewrite Heq.
  - intros pre ty c secs' -> Hty. rewrite Hall, annotate_app.
    apply drop_trailing_blank_keeps. unfold is_blank_formatter. simpl.
    now destruct (MarkdownSectionEnum_eq_dec ty BLANK_LINE).
Qed.

Lemma blank_run_placement_witness :
  render (constant_formatters "h" "p" "x")
         [(PARAGRAPH, ["a"]); (BLANK_LINE, [""; ""])] 88
  = render (constant_formatters "h" "p" "x") [(PARAGRAPH, ["a"])] 88.
Proof.
  apply (proj2 (proj2 (blank_run_placement (constant_formatters "h" "p" "x")
                         [(PARAGRAPH, ["a"])]))).
  reflexivity.
Defined.

(** C4, as the claim has it, fails: a blank run at the start of the document
    is emitted, and shows in the text. *)
Lemma blank_run_at_document_start :
  formatters (render_loop render_start
                [(BLANK_LINE, [""]); (PARAGRAPH, ["a"])])
    = [ {| f_type := BLANK_LINE; f_offset := 0; f_content := [""] |};
        {| f_type := PARAGRAPH; f_offset := 1; f_content := ["a"] |} ] /\
  _reformat_markdown_text sample_detectors (constant_formatters "h" "a" "x")
    2 (NL ++ "a") 88 = Return (NL ++ "a" ++ NL)%string /\
  _reformat_markdown_text sample_detectors (constant_formatters "h" "a" "x")
    2 "a" 88 = Return ("a" ++ NL)%string.
Proof. repeat split. Qed.

(** ** How a text ends *)

Lemma endswith_cons (c : ascii) (s suffix : string) :
  endswith (String c s) suffix =
  String.eqb (String c s) suffix || endswith s suffix.
Proof. reflexivity. Qed.

Lemma append_nonempty (a b : string) :
  b <> EmptyString -> (a ++ b)%string <> EmptyString.
Proof. destruct a; simpl; [trivial | discriminate]. Qed.

Lemma eqb_empty (s : string) : s <> EmptyString -> String.eqb s "" = false.
Proof. destruct s; [contradiction | reflexivity]. Qed.

(** What a text ends with is a matter of its last part, if it has one. *)
Lemma endswith_append_NL (a b : string) :
  b <> EmptyString -> endswith (a ++ b) NL = endswith b NL.
Proof.
  intros Hb. induction a as [|c a IH]; [reflexivity|].
  simpl append. rewrite endswith_cons, IH.
  unfold NL at 1. simpl String.eqb.
  rewrite (eqb_empty _ (append_nonempty a b Hb)).
  now destruct (Ascii.eqb c (ascii_of_nat 10)).
Qed.

Lemma endswith_NL_one (s : string) : endswith (s ++ NL) NL = true.
Proof.
  rewrite endswith_append_NL by discriminate. reflexivity.
Qed.

Lemma eqb_append_NL (s : string) :
  String.eqb (s ++ NL) NL = String.eqb s "".
Proof.
  destruct s as [|d s]; [reflexivity|]. unfold NL. simpl.
  destruct (Ascii.eqb d (ascii_of_nat 10)); [|reflexivity].
  destruct s; reflexivity.
Qed.

Lemma endswith_NL_two (s : string) :
  endswith (s ++ NL) (NL ++ NL) = endswith s NL.
Proof.
  induction s as [|c s IH]; [reflexivity|].
  change (String c s ++ NL)%string with (String c (s ++ NL)).
  rewrite !endswith_cons, IH. f_equal.
  change (String.eqb (String c (s ++ NL)) (NL ++ NL))
    with (Ascii.eqb c (ascii_of_nat 10) && String.eqb (s ++ NL) NL).
  now rewrite eqb_append_NL.
Qed.

Lemma join_cons (sep x y : string) (l : list string) :
  Py.join sep (x :: y :: l) = (x ++ sep ++ Py.join sep (y :: l))%string.
Proof. reflexivity. Qed.

(** Texts joined by line breaks, the last of them not empty and without a
    line break at its end, make a text that is neither. *)
Lemma join_last (texts : list string) (last : string) :
  last <> EmptyString ->
  endswith last NL = false ->
  Py.join NL (texts ++ [last]) <> EmptyString /\
  endswith (Py.join NL (texts ++ [last])) NL = false.
Proof.
  intros Hne Hend. induction texts as [|x texts [IHne IHend]].
  - now split.
  - destruct (texts ++ [last]) as [|y l] eqn:Hl;
      [destruct texts; discriminate|].
    simpl app. rewrite Hl, join_cons.
    set (joined := Py.join NL (y :: l)) in *. split.
    + apply append_nonempty. discriminate.
    + rewrite endswith_append_NL by discriminate.
      change (NL ++ joined)%string with (String (ascii_of_nat 10) joined).
      rewrite endswith_cons, IHend.
      change (String.eqb (String (ascii_of_nat 10) joined) NL)
        with (Ascii.eqb (ascii_of_nat 10) (ascii_of_nat 10)
              && String.eqb joined "").
      now rewrite (eqb_empty _ IHne).
Qed.

(** ** The two passes *)

Section TwoPasses.

Context {Number : Type}.
Variable D : Detectors.
Variable F : Formatters Number.

Lemma _reformat_Return (fuel : nat) (log_text new_text : string)
  (width : Number) :
  _reformat_markdown_text D F fuel log_text width = Return new_text ->
  exists st,
    reachable D (Py.splitlines log_text) st /\
    remaining_lines st = [] /\
    new_text = render F (sections st) width.
Proof.
  unfold _reformat_markdown_text.
  destruct (classify D fuel (Py.splitlines log_text)) as [st| |] eqn:Hc;
    try discriminate.
  intros H. inversion H; subst. exists st.
  destruct (while_remaining_reachable D _ fuel _ st (reach_start D _) Hc).
  now repeat split.
Qed.

(** A single pass raises nothing but [RuntimeError]. *)
Lemma _reformat_Raise (fuel : nat) (log_text : string) (width : Number)
  (e : exn) :
  _reformat_markdown_text D F fuel log_text width = Raise e ->
  exists message, e = RuntimeError message.
Proof.
  unfold _reformat_markdown_text, classify.
  generalize {| sections := []; current_line := 1;
                remaining_lines := Py.splitlines log_text |}.
  induction fuel as [|fuel IH]; intros st; simpl;
    destruct (remaining_lines st); try discriminate.
  unfold loop_body at 1.
  destruct (for_splitters (SPLITTERS D) (remaining_lines st))
    as [[[ty c] r]|].
  - apply IH.
  - intros H. inversion H; subst. now eexists.
Qed.

Lemma _reformat_fuel (fuel fuel' : nat) (log_text : string) (width : Number) :
  fuel <= fuel' ->
  _reformat_markdown_text D F fuel log_text width <> OutOfFuel ->
  _reformat_markdown_text D F fuel' log_text width
    = _reformat_markdown_text D F fuel log_text width.
Proof.
  unfold _reformat_markdown_text, classify. intros Hle H.
  rewrite (while_remaining_fuel D fuel fuel' _ Hle); [reflexivity|].
  intros Hout. apply H. now rewrite Hout.
Qed.

Lemma reformat_Return (fuel : nat) (text new_text : string) (width : Number) :
  reformat_markdown_text D F fuel text width = Return new_text <->
  _reformat_markdown_text D F fuel text width = Return new_text /\
  _reformat_markdown_text D F fuel new_text width = Return new_text.
Proof.
  unfold reformat_markdown_text. split.
  - destruct (_reformat_markdown_text D F fuel text width) as [t1| |];
      try discriminate.
    destruct (_reformat_markdown_text D F fuel t1 width) as [t2| |] eqn:H2;
      try discriminate.
    destruct (String.eqb t2 t1) eqn:Heq; simpl; [|discriminate].
    intros H. inversion H; subst. apply String.eqb_eq in Heq. subst.
    now split.
  - intros [-> ->]. now rewrite String.eqb_refl.
Qed.

End TwoPasses.

(** ** The entry point: the claims *)

(** C3. [reformat_markdown_text] raises [ReformatInconsistentException]
    exactly when both passes return and the second pass, run on what the
    first returned, returns another text; then it can do nothing else.  When
    the second pass returns the same text, that text is returned. *)
Theorem inconsistency_is_raised {Number : Type} (D : Detectors)
  (F : Formatters Number) (fuel : nat) (text : string) (width : Number) :
  ((exists message,
       reformat_markdown_text D F fuel text width
         = Raise (ReformatInconsistentException message)) <->
   (exists new_text new_new_text,
       _reformat_markdown_text D F fuel text width = Return new_text /\
       _reformat_markdown_text D F fuel new_text width = Return new_new_text /\
       new_new_text <> new_text)) /\
  (forall new_text new_new_text,
      _reformat_markdown_text D F fuel text width = Return new_text ->
      _reformat_markdown_text D F fuel new_text width = Return new_new_text ->
      new_new_text <> new_text ->
      reformat_markdown_text D F fuel text width
        = Raise (ReformatInconsistentException INCONSISTENT_MESSAGE)) /\
  (forall new_text,
      _reformat_markdown_text D F fuel text width = Return new_text ->
      _reformat_markdown_text D F fuel new_text width = Return new_text ->
      reformat_markdown_text D F fuel text width = Return new_text).
Proof.
  assert (Hraise : forall t1 t2,
             _reformat_markdown_text D F fuel text width = Return t1 ->
             _reformat_markdown_text D F fuel t1 width = Return t2 ->
             t2 <> t1 ->
             reformat_markdown_text D F fuel text width
               = Raise (ReformatInconsistentException INCONSISTENT_MESSAGE)).
  { intros t1 t2 H1 H2 Hne. unfold reformat_markdown_text.
    rewrite H1, H2. apply String.eqb_neq in Hne. now rewrite Hne. }
  split; [|split].
  - split.
    + intros [message H]. unfold reformat_markdown_text in H.
      destruct (_reformat_markdown_text D F fuel text width)
        as [t1|e|] eqn:H1; try discriminate.
      * destruct (_reformat_markdown_text D F fuel t1 width)
          as [t2|e|] eqn:H2; try discriminate.
        -- destruct (String.eqb t2 t1) eqn:Heq; [discriminate|].
           exists t1, t2. split; [reflexivity|]. split; [exact H2|].
           now apply String.eqb_neq.
        -- destruct (_reformat_Raise D F _ _ _ _ H2) as [m ->].
           discriminate.
      * destruct (_reformat_Raise D F _ _ _ _ H1) as [m ->]. discriminate.
    + intros (t1 & t2 & H1 & H2 & Hne). eexists.
      exact (Hraise t1 t2 H1 H2 Hne).
  - exact Hraise.
  - intros t1 H1 H2. apply reformat_Return. now split.
Qed.

Lemma inconsistency_is_raised_witness :
  reformat_markdown_text sample_detectors (constant_formatters "text" "p" "x")
    1 "# h" 88
  = Raise (ReformatInconsistentException INCONSISTENT_MESSAGE).
Proof.
  apply (proj1 (proj2 (inconsistency_is_raised sample_detectors
                         (constant_formatters "text" "p" "x") 1 "# h" 88))
               ("text" ++ NL)%string ("p" ++ NL)%string);
    [reflexivity | reflexivity | discriminate].
Defined.

(** C1. A text that [reformat_markdown_text] returns is returned again when it
    is reformatted in turn, at the same width; and so it is however many
    more turns the loop is allowed. *)
Theorem reformat_idempotent {Number : Type} (D : Detectors)
  (F : Formatters Number) (fuel : nat) (text : string) (width : Number)
  (new_text : string) :
  reformat_markdown_text D F fuel text width = Return new_text ->
  reformat_markdown_text D F fuel new_text width
    = reformat_markdown_text D F fuel text width /\
  (forall fuel',
      fuel <= fuel' ->
      reformat_markdown_text D F fuel' text width = Return new_text /\
      reformat_markdown_text D F fuel' new_text width = Return new_text).
Proof.
  intros H. pose proof H as H'. apply reformat_Return in H' as [H1 H2].
  split.
  - rewrite H. apply reformat_Return. now split.
  - intros fuel' Hle.
    assert (H1' : _reformat_markdown_text D F fuel' text width
                  = Return new_text)
      by (rewrite (_reformat_fuel D F fuel fuel' _ _ Hle); now rewrite H1).
    assert (H2' : _reformat_markdown_text D F fuel' new_text width
                  = Return new_text)
      by (rewrite (_reformat_fuel D F fuel fuel' _ _ Hle); now rewrite H2).
    split; apply reformat_Return; now split.
Qed.

Lemma reformat_idempotent_witness :
  reformat_markdown_text sample_detectors (constant_formatters "# h" "p" "x")
    4 ("# h" ++ NL ++ NL ++ "p" ++ NL) 88
  = reformat_markdown_text sample_detectors (constant_formatters "# h" "p" "x")
      4 ("#title" ++ NL ++ NL ++ NL ++ "some" ++ NL ++ "text") 88.
Proof.
  exact (proj1 (reformat_idempotent sample_detectors
                  (constant_formatters "# h" "p" "x") 4
                  ("#title" ++ NL ++ NL ++ NL ++ "some" ++ NL ++ "text") 88
                  ("# h" ++ NL ++ NL ++ "p" ++ NL) eq_refl)).
Defined.

(** What one pass returns ends with one line break, and one only, when no
    section is printed with a line break at its end and no section other
    than a blank one is printed as the empty text. *)
Lemma _reformat_ends_with_one_break {Number : Type} (D : Detectors)
  (F : Formatters Number) (fuel : nat) (text new_text : string)
  (width : Number) :
  _reformat_markdown_text D F fuel text width = Return new_text ->
  (forall section_type offset section_content,
      endswith (FORMATTERS F section_type offset section_content width) NL
        = false) ->
  (forall section_type offset section_content,
      section_type <> BLANK_LINE ->
      section_content <> [] ->
      FORMATTERS F section_type offset section_content width <> "") ->
  endswith new_text NL = true /\ endswith new_text (NL ++ NL) = false.
Proof.
  intros Hret Hbreak Hempty.
  apply _reformat_Return in Hret as (st & Hreach & _ & ->).
  unfold render. fold render_start.
  rewrite endswith_NL_one, endswith_NL_two. split; [reflexivity|].
  pose proof (render_loop_emits (sections st)) as Hfs.
  destruct (formatters (render_loop render_start (sections st)))
    as [|f0 fs0]; [reflexivity|].
  destruct (@exists_last _ (f0 :: fs0)) as (kept & f & Hk); [discriminate|].
  rewrite Hk in *. clear Hk f0 fs0.
  rewrite map_app. simpl map. apply join_last.
  - apply Hempty.
    + pose proof (drop_trailing_blank_last _ _ _ (eq_sym Hfs)) as Hb.
      unfold is_blank_formatter in Hb.
      now destruct (MarkdownSectionEnum_eq_dec (f_type f) BLANK_LINE).
    + assert (Hin : In f (drop_trailing_blank (annotate 0 (sections st))))
        by (rewrite <- Hfs; apply in_or_app; right; now left).
      apply drop_trailing_blank_In, annotate_In in Hin.
      pose proof (reachable_sections_nonempty D _ _ Hreach) as Hne.
      rewrite Forall_forall in Hne. exact (Hne _ Hin).
  - apply Hbreak.
Qed.

(** C9, as the code has it.  The text [reformat_markdown_text] returns ends
    with one line break, and one only, when no section is printed with a line
    break at its end and no section other than a blank one is printed as the
    empty text.  One pass over the empty document returns a lone line break,
    and so does [reformat_markdown_text] when, of the line that a lone line
    break makes, the ATX splitter takes nothing and the blank-line splitter
    takes all. *)
Theorem trailing_line_break {Number : Type} (D : Detectors)
  (F : Formatters Number) (width : Number) :
  (forall fuel text new_text,
      reformat_markdown_text D F fuel text width = Return new_text ->
      (forall section_type offset section_content,
          endswith (FORMATTERS F section_type offset section_content width) NL
            = false) ->
      (forall section_type offset section_content,
          section_type <> BLANK_LINE ->
          section_content <> [] ->
          FORMATTERS F section_type offset section_content width <> "") ->
      endswith new_text NL = true /\ endswith new_text (NL ++ NL) = false) /\
  (forall fuel, _reformat_markdown_text D F fuel "" width = Return NL) /\
  (forall fuel new_text,
      reformat_markdown_text D F fuel "" width = Return new_text ->
      new_text = NL) /\
  (split_atx_heading D [""] = ([], [""]) ->
   split_blank_line D [""] = ([""], []) ->
   forall fuel,
     1 <= fuel -> reformat_markdown_text D F fuel "" width = Return NL).
Proof.
  assert (Hempty : forall fuel,
             _reformat_markdown_text D F fuel "" width = Return NL)
    by (intros [|fuel]; reflexivity).
  split; [|split; [|split]].
  - intros fuel text new_text Hret.
    apply reformat_Return in Hret as [Hret _].
    exact (_reformat_ends_with_one_break D F fuel text new_text width Hret).
  - exact Hempty.
  - intros fuel new_text Hret. apply reformat_Return in Hret as [Hret _].
    rewrite Hempty in Hret. now inversion Hret.
  - intros Hatx Hblank fuel Hfuel. apply reformat_Return.
    split; [apply Hempty|].
    destruct fuel as [|fuel]; [lia|].
    unfold _reformat_markdown_text, classify.
    change (Py.splitlines NL) with [""].
    rewrite while_remaining_turn by discriminate.
    unfold loop_body, SPLITTERS. simpl remaining_lines.
    rewrite for_splitters_cons, Hatx. simpl fst. simpl snd.
    rewrite for_splitters_cons, Hblank. simpl.
    now rewrite while_remaining_done.
Qed.

Lemma trailing_line_break_witness :
  (endswith ("# h" ++ NL) NL = true /\
   endswith ("# h" ++ NL) (NL ++ NL) = false) /\
  reformat_markdown_text sample_detectors (constant_formatters "# h" "p" "x")
    1 "" 88 = Return NL.
Proof.
  split.
  - apply (proj1 (trailing_line_break sample_detectors
                    (constant_formatters "# h" "p" "x") 88)
                 1 "#title" ("# h" ++ NL)%string).
    + reflexivity.
    + intros [] offset section_content; reflexivity.
    + intros [] offset section_content Hty Hc;
        solve [discriminate | now destruct Hty].
  - apply (proj2 (proj2 (proj2 (trailing_line_break sample_detectors
                                  (constant_formatters "# h" "p" "x") 88))));
      [reflexivity | reflexivity | lia].
Defined.

(** C9, as the claim has it, fails: a last section printed as the empty text
    leaves the text it follows with two line breaks at its end, though no
    section is printed with a line break at its end. *)
Lemma two_trailing_line_breaks :
  (forall section_type offset section_content,
      endswith (FORMATTERS (constant_formatters ("# h" ++ NL ++ "text") "" "x")
                  section_type offset section_content 88) NL = false) /\
  reformat_markdown_text sample_detectors
    (constant_formatters ("# h" ++ NL ++ "text") "" "x")
    3 ("# h" ++ NL ++ "text") 88
  = Return ("# h" ++ NL ++ "text" ++ NL ++ NL)%string /\
  endswith ("# h" ++ NL ++ "text" ++ NL ++ NL) (NL ++ NL) = true.
Proof.
  split; [|split; reflexivity].
  intros [] offset section_content; reflexivity.
Qed.

(** * Further properties *)

(** ** What the patterns match *)

Lemma matches_nullable (start : bool) (r : Re.regex) :
  Re.nullable start r = true -> matches start r "".
Proof.
  induction r; simpl; intros H; try discriminate.
  - constructor.
  - subst. constructor.
  - apply andb_prop in H as [H1 H2].
    exact (matches_cat start r1 r2 "" "" (IHr1 H1) (IHr2 H2)).
  - apply orb_prop in H as [H | H];
      [apply matches_alt_l | apply matches_alt_r]; auto.
  - constructor.
Qed.

Lemma append_empty (a b : string) :
  (a ++ b)%string = EmptyString -> a = EmptyString /\ b = EmptyString.
Proof. destruct a; simpl; [auto | discriminate]. Qed.

Lemma nullable_matches (start : bool) (r : Re.regex) (w : string) :
  matches start r w -> w = EmptyString -> Re.nullable start r = true.
Proof.
  induction 1; intros Hw; simpl; try reflexivity; try discriminate.
  - apply append_empty in Hw as [-> ->]. simpl in *.
    now rewrite IHmatches1, IHmatches2.
  - now rewrite IHmatches.
  - rewrite IHmatches by assumption. apply orb_true_r.
Qed.

Lemma matches_flag (start : bool) (r : Re.regex) (w u : string) :
  matches false r w -> matches (if Py.truthy u then false else false) r w.
Proof. now destruct (Py.truthy u). Qed.

Lemma flag_matches (r : Re.regex) (w u : string) :
  matches (if Py.truthy u then false else false) r w -> matches false r w.
Proof. now destruct (Py.truthy u). Qed.

(** A pattern matches [c] and then [w] exactly when what is left of it after
    [c] matches [w]. *)
Lemma matches_deriv (r : Re.regex) :
  forall start c w,
    matches false (Re.deriv start c r) w <-> matches start r (String c w).
Proof.
  induction r; intros start c w; simpl.
  - split; intros H; inversion H.
  - split; intros H; inversion H.
  - split; intros H; inversion H.
  - destruct (p c) eqn:Hp; split; intros H; inversion H; subst.
    + now constructor.
    + constructor.
    + congruence.
  - split.
    + intros H. inversion H as [| | | | ? ? ? ? Hl | ? ? ? ? Hr | |]; subst.
      * inversion Hl as [| | |? ? ? w1 w2 H1 H2| | | |]; subst.
        apply flag_matches in H2. apply IHr1 in H1.
        exact (matches_cat start r1 r2 (String c w1) w2 H1 H2).
      * destruct (Re.nullable start r1) eqn:Hn; [|inversion Hr].
        apply IHr2 in Hr.
        exact (matches_cat start r1 r2 "" (String c w)
                 (matches_nullable _ _ Hn) Hr).
    + intros H.
      inversion H as [| | |? ? ? w1 w2 H1 H2| | | |]; subst.
      destruct w1 as [|c1 w1]; simpl in *.
      * subst. apply matches_alt_r.
        rewrite (nullable_matches _ _ _ H1 eq_refl). now apply IHr2.
      * match goal with
        | Heq : String _ _ = String _ _ |- _ => inversion Heq; subst
        end.
        apply matches_alt_l.
        apply matches_cat; [now apply IHr1 | now apply matches_flag].
  - split; intros H.
    + inversion H; subst;
        [apply matches_alt_l; now apply IHr1
        |apply matches_alt_r; now apply IHr2].
    + inversion H; subst;
        [apply matches_alt_l; now apply IHr1
        |apply matches_alt_r; now apply IHr2].
  - split; intros H.
    + inversion H as [| | |? ? ? w1 w2 H1 H2| | | |]; subst.
      apply flag_matches in H2. apply IHr in H1.
      exact (matches_star_cons start r c w1 w2 H1 H2).
    + inversion H as [| | | | | | |? ? ? w1 w2 H1 H2]; subst.
      apply matches_cat; [now apply IHr | now apply matches_flag].
Qed.

(** [match_prefix] finds the prefixes that the pattern matches. *)
Lemma match_prefix_matches (s : string) :
  forall start r,
    Re.match_prefix start r s = true <->
    exists w rest, s = (w ++ rest)%string /\ matches start r w.
Proof.
  induction s as [|c s IH]; intros start r; simpl.
  - rewrite orb_false_r. split.
    + intros H. exists "", "". split; [reflexivity|].
      now apply matches_nullable.
    + intros (w & rest & Hs & Hm). symmetry in Hs.
      apply append_empty in Hs as [-> _].
      exact (nullable_matches _ _ _ Hm eq_refl).
  - split.
    + intros H. apply orb_prop in H as [H | H].
      * exists "", (String c s). split; [reflexivity|].
        now apply matches_nullable.
      * apply IH in H as (w & rest & -> & Hm).
        exists (String c w), rest. split; [reflexivity|].
        now apply matches_deriv.
    + intros (w & rest & Hs & Hm). destruct w as [|c' w].
      * now rewrite (nullable_matches _ _ _ Hm eq_refl).
      * simpl in Hs. inversion Hs; subst. apply orb_true_iff. right.
        apply IH. exists w, rest. split; [reflexivity|].
        now apply matches_deriv.
Qed.

Lemma matches_star_class (p : ascii -> bool) (w : string) :
  forall start, matches start (Re.Star (Re.Class p)) w <-> Py.all p w = true.
Proof.
  intros start. split.
  - intros H. remember (Re.Star (Re.Class p)) as r eqn:Hr.
    induction H; inversion Hr; subst; [reflexivity|].
    inversion H; subst. simpl. rewrite IHmatches2 by reflexivity.
    now rewrite andb_true_r.
  - revert start. induction w as [|c w IH]; intros start H; [constructor|].
    simpl in H. apply andb_prop in H as [Hc Hw].
    apply (matches_star_cons start (Re.Class p) c "" w);
      [now constructor | now apply IH].
Qed.

Lemma matches_chr (c : ascii) (w : string) (start : bool) :
  matches start (Re.Chr c) w <-> w = String c "".
Proof.
  unfold Re.Chr. split.
  - intros H. inversion H; subst.
    match goal with Heq : Ascii.eqb _ _ = true |- _ =>
      apply Ascii.eqb_eq in Heq; now subst end.
  - intros ->. constructor. apply Ascii.eqb_refl.
Qed.

Lemma matches_plus_class (p : ascii -> bool) (w : string) (start : bool) :
  matches start (Re.Plus (Re.Class p)) w <->
  w <> EmptyString /\ Py.all p w = true.
Proof.
  unfold Re.Plus. split.
  - intros H. inversion H as [| | |? ? ? w1 w2 H1 H2| | | |]; subst.
    inversion H1; subst. apply matches_star_class in H2.
    simpl. split; [discriminate|].
    match goal with Hp : p _ = true |- _ => now rewrite Hp end.
  - intros [Hne H]. destruct w as [|c w]; [contradiction|].
    simpl in H. apply andb_prop in H as [Hc Hw].
    apply (matches_cat start (Re.Class p) _ (String c "") w);
      [now constructor | now apply matches_star_class].
Qed.

Lemma matches_marker (w : string) (start : bool) :
  matches start
    (Re.Alt (Re.Chr "*")
       (Re.Alt (Re.Chr "-")
          (Re.Alt (Re.Chr "+")
             (Re.Cat (Re.Plus (Re.Class is_digit)) (Re.Chr "."))))) w <->
  list_marker w.
Proof.
  split.
  - intros H.
    repeat match goal with
           | H : matches _ (Re.Alt _ _) _ |- _ => inversion H; subst; clear H
           | H : matches _ (Re.Chr _) _ |- _ => apply matches_chr in H; subst
           end; try constructor.
    match goal with
    | H : matches _ (Re.Cat _ _) _ |- _ =>
        inversion H as [| | |? ? ? w1 w2 H1 H2| | | |]; subst
    end.
    apply matches_plus_class in H1 as [Hne Hd].
    apply matches_chr in H2. subst. now constructor.
  - intros [| | | digits Hne Hd].
    + apply matches_alt_l. now apply matches_chr.
    + apply matches_alt_r, matches_alt_l. now apply matches_chr.
    + apply matches_alt_r, matches_alt_r, matches_alt_l. now apply matches_chr.
    + do 3 apply matches_alt_r. apply matches_cat.
      * now apply matches_plus_class.
      * now apply matches_chr.
Qed.

(** The words [LIST_START_REGEX] matches at the start of a line: white space,
    a list marker, a space. *)
Lemma matches_list_start (w : string) :
  matches true LIST_START_REGEX w <->
  exists ws marker,
    w = (ws ++ marker ++ " ")%string /\
    Py.all Py.isspace ws = true /\ list_marker marker.
Proof.
  unfold LIST_START_REGEX. split.
  - intros H.
    inversion H as [| | |? ? ? w0 w1 H0 H1| | | |]; subst.
    inversion H0; subst. simpl in H1.
    inversion H1 as [| | |? ? ? ws w2 Hws H2| | | |]; subst.
    inversion H2 as [| | |? ? ? marker sp Hm Hsp| | | |]; subst.
    apply matches_star_class in Hws. apply matches_marker in Hm.
    apply matches_chr in Hsp. subst. now exists ws, marker.
  - intros (ws & marker & -> & Hws & Hm).
    apply (matches_cat true Re.Bol _ "" (ws ++ marker ++ " "));
      [constructor|].
    apply matches_cat; [now apply matches_star_class|].
    apply matches_cat; [now apply matches_marker | now apply matches_chr].
Qed.

Lemma list_start_search_prefix (line : string) :
  Re.search LIST_START_REGEX line = Re.match_prefix true LIST_START_REGEX line.
Proof.
  destruct line as [|c s]; [reflexivity|].
  rewrite list_start_search. reflexivity.
Qed.

Lemma lstrip_app_space (ws s : string) :
  Py.all Py.isspace ws = true -> Py.lstrip (ws ++ s) = Py.lstrip s.
Proof.
  induction ws as [|c ws IH]; simpl; [reflexivity|].
  intros H. apply andb_prop in H as [Hc Hws]. rewrite Hc. now apply IH.
Qed.

Lemma lstrip_decompose (line : string) :
  exists ws,
    line = (ws ++ Py.lstrip line)%string /\ Py.all Py.isspace ws = true.
Proof.
  induction line as [|c line (ws & Heq & Hws)]; simpl.
  - now exists "".
  - destruct (Py.isspace c) eqn:Hc.
    + exists (String c ws). simpl. rewrite Hc, Hws. split; [|reflexivity].
      now rewrite <- Heq.
    + now exists "".
Qed.

Lemma digit_not_space (c : ascii) :
  is_digit c = true -> Py.isspace c = false.
Proof.
  destruct c as [[] [] [] [] [] [] [] []]; vm_compute; congruence.
Qed.

Lemma list_marker_head (marker : string) :
  list_marker marker ->
  exists c rest,
    marker = String c rest /\ Py.isspace c = false /\
    (c = "*" \/ c = "-" \/ c = "+" \/ is_digit c = true)%char.
Proof.
  intros [| | | digits Hne Hd].
  - exists "*"%char, "". repeat split. auto.
  - exists "-"%char, "". repeat split. auto.
  - exists "+"%char, "". repeat split. auto.
  - destruct digits as [|c digits]; [contradiction|].
    simpl in Hd. apply andb_prop in Hd as [Hc _].
    exists c, (digits ++ ".")%string.
    split; [reflexivity|]. split; [now apply digit_not_space | auto].
Qed.

(** The pattern is found in a line exactly when, white space skipped, a list
    marker and a space come first. *)
Lemma list_start_search_iff (line : string) :
  Re.search LIST_START_REGEX line = true <->
  exists marker rest,
    Py.lstrip line = (marker ++ " " ++ rest)%string /\ list_marker marker.
Proof.
  rewrite list_start_search_prefix, match_prefix_matches. split.
  - intros (w & rest & -> & Hw).
    apply matches_list_start in Hw as (ws & marker & -> & Hws & Hm).
    exists marker, rest. split; [|exact Hm].
    rewrite !append_assoc, (lstrip_app_space _ _ Hws).
    destruct (list_marker_head _ Hm) as (c & t & -> & Hc & _).
    simpl. now rewrite Hc.
  - intros (marker & rest & Heq & Hm).
    destruct (lstrip_decompose line) as (ws & Hline & Hws).
    exists (ws ++ marker ++ " ")%string, rest. split.
    + rewrite Hline at 1. rewrite Heq. now rewrite !append_assoc.
    + apply matches_list_start. now exists ws, marker.
Qed.

(** ** White space in a line *)

Lemma lstrip_empty_iff (s : string) :
  Py.lstrip s = EmptyString <-> Py.all Py.isspace s = true.
Proof.
  induction s as [|c s IH]; simpl; [tauto|].
  destruct (Py.isspace c); simpl; [exact IH|]. split; discriminate.
Qed.

Lemma blank_iff (line : string) :
  is_blank_line_line line = true <-> Py.all Py.isspace line = true.
Proof.
  unfold is_blank_line_line. rewrite negb_true_iff. split.
  - intros H. now apply lstrip_empty_iff, blank_lstrip_empty.
  - intros H. apply lstrip_empty_iff in H. unfold Py.strip. now rewrite H.
Qed.

Lemma remove_space_blank (s : string) :
  Py.all Py.isspace s = true -> remove_space s = EmptyString.
Proof.
  induction s as [|c s IH]; simpl; [reflexivity|].
  intros H. apply andb_prop in H as [Hc Hs]. rewrite Hc. now apply IH.
Qed.

Lemma remove_space_spaceless (s : string) : spaceless (remove_space s) = true.
Proof.
  induction s as [|c s IH]; simpl; [reflexivity|].
  destruct (Py.isspace c) eqn:Hc; [exact IH|].
  unfold spaceless in *. simpl. now rewrite Hc, IH.
Qed.

Lemma remove_space_lstrip (s : string) :
  remove_space (Py.lstrip s) = remove_space s.
Proof.
  induction s as [|c s IH]; simpl; [reflexivity|].
  destruct (Py.isspace c) eqn:Hc; [exact IH|]. simpl. now rewrite Hc.
Qed.

Lemma remove_space_rstrip (s : string) :
  remove_space (Py.rstrip s) = remove_space s.
Proof.
  induction s as [|c s IH]; simpl; [reflexivity|].
  destruct (Py.isspace c) eqn:Hc; simpl.
  - destruct (Py.rstrip s) eqn:Hr; simpl in *; [exact IH|].
    now rewrite Hc.
  - now rewrite Hc, IH.
Qed.

Lemma remove_space_strip (s : string) :
  remove_space (Py.strip s) = remove_space s.
Proof.
  unfold Py.strip. now rewrite remove_space_rstrip, remove_space_lstrip.
Qed.

Lemma spaceless_remove_space (s : string) :
  spaceless s = true -> remove_space s = s.
Proof.
  induction s as [|c s IH]; simpl; [reflexivity|].
  unfold spaceless. simpl. intros H. apply andb_prop in H as [Hc Hs].
  apply negb_true_iff in Hc. rewrite Hc. now rewrite (IH Hs).
Qed.

Lemma join_empty_cons (x : string) (l : list string) :
  Py.join "" (x :: l) = (x ++ Py.join "" l)%string.
Proof. destruct l; simpl; [now rewrite append_empty_r | reflexivity]. Qed.

Lemma join_split_from (s : string) :
  forall word,
    Py.join "" (Py.split_from word s)
    = (Py.rev_string "" word ++ remove_space s)%string.
Proof.
  induction s as [|c s IH]; intros word.
  - simpl. destruct word as [|d word]; [reflexivity|]. simpl Py.truthy.
    cbv iota. now rewrite append_empty_r.
  - simpl. destruct (Py.isspace c) eqn:Hc.
    + destruct word as [|d word]; simpl Py.truthy; cbv iota.
      * exact (IH "").
      * rewrite join_empty_cons. now rewrite (IH "").
    + rewrite (IH (String c word)). simpl Py.rev_string.
      rewrite (rev_string_acc word (String c "")), append_assoc.
      reflexivity.
Qed.

(** [split] and [join] together take the white space out. *)
Lemma join_split (s : string) : Py.join "" (Py.split s) = remove_space s.
Proof. unfold Py.split. now rewrite join_split_from. Qed.

Lemma repeat_length (c : ascii) (n : nat) :
  String.length (Py.repeat (String c "") n) = n.
Proof. induction n as [|n IH]; simpl; [reflexivity | now rewrite IH]. Qed.

Lemma char_is_eq (c d : ascii) : char_is (String c "") d = true <-> d = c.
Proof.
  unfold char_is. rewrite String.eqb_eq. split; [|now intros ->].
  intros H. now inversion H.
Qed.

Lemma all_char_is_repeat (c : ascii) (s : string) :
  Py.all (char_is (String c "")) s = true <->
  s = Py.repeat (String c "") (String.length s).
Proof.
  induction s as [|d s IH]; simpl; [tauto|]. split.
  - intros H. apply andb_prop in H as [Hd Hs]. apply char_is_eq in Hd.
    subst. f_equal. now apply IH.
  - intros H. inversion H; subst. rewrite <- H2.
    apply andb_true_intro. split; [now apply char_is_eq | now apply IH].
Qed.

(** ** The first character of a line *)

Lemma first_char_lstrip (line : string) (c : ascii) (t : string) :
  Py.lstrip line = String c t -> first_char line = Some c.
Proof. unfold first_char. now intros ->. Qed.

Lemma first_char_strip (line : string) (c : ascii) (t : string) :
  Py.strip line = String c t -> first_char line = Some c.
Proof.
  unfold Py.strip, first_char.
  destruct (lstrip_head line) as [-> | (d & s & -> & Hd)]; [discriminate|].
  simpl. rewrite Hd. simpl. intros H. now inversion H.
Qed.

Lemma first_char_remove_space (line : string) (c : ascii) (t : string) :
  remove_space line = String c t -> first_char line = Some c.
Proof.
  unfold first_char. induction line as [|d line IH]; simpl; [discriminate|].
  destruct (Py.isspace d); [exact IH|]. intros H. now inversion H.
Qed.

Lemma startswith_char (s : string) (c : ascii) :
  Py.startswith s (String c "") = true -> exists t, s = String c t.
Proof.
  unfold Py.startswith. destruct s as [|d s]; simpl; [discriminate|].
  destruct (ascii_dec c d) as [<- | _]; [|discriminate]. now exists s.
Qed.

Lemma startswith_three (s : string) (c : ascii) :
  Py.startswith s (Py.repeat (String c "") 3) = true -> exists t, s = String c t.
Proof.
  unfold Py.startswith. destruct s as [|d s]; simpl; [discriminate|].
  destruct (ascii_dec c d) as [<- | _]; [|discriminate]. now exists s.
Qed.

Lemma first_char_atx (line : string) :
  is_atx_heading_line line = true -> first_char line = Some "#"%char.
Proof.
  unfold is_atx_heading_line. intros H. apply andb_prop in H as [_ H].
  apply startswith_char in H as [t H]. exact (first_char_lstrip _ _ _ H).
Qed.

Lemma first_char_block_quote (line : string) :
  is_block_quote_line line = true -> first_char line = Some ">"%char.
Proof.
  unfold is_block_quote_line. intros H. apply andb_prop in H as [_ H].
  apply startswith_char in H as [t H]. exact (first_char_lstrip _ _ _ H).
Qed.

Lemma first_char_table (line : string) :
  is_table_start_line line = true -> first_char line = Some "|"%char.
Proof.
  unfold is_table_start_line. intros H.
  apply startswith_char in H as [t H]. exact (first_char_lstrip _ _ _ H).
Qed.

Lemma first_char_fenced (line : string) :
  is_fenced_code_block_start_line line = true ->
  first_char line = Some "`"%char \/ first_char line = Some "~"%char.
Proof.
  unfold is_fenced_code_block_start_line, fenced_start_loop,
    FENCED_CODE_BLOCK_FENCE_CHARACTERS.
  destruct (Py.startswith (Py.strip line) (Py.repeat "`" 3)) eqn:H1.
  - intros _. left. apply startswith_three in H1 as [t H1].
    exact (first_char_strip _ _ _ H1).
  - destruct (Py.startswith (Py.strip line) (Py.repeat "~" 3)) eqn:H2;
      [|discriminate].
    intros _. right. apply startswith_three in H2 as [t H2].
    exact (first_char_strip _ _ _ H2).
Qed.

Lemma first_char_list (line : string) :
  is_list_start_line line = true ->
  exists c,
    first_char line = Some c /\
    (c = "*" \/ c = "-" \/ c = "+" \/ is_digit c = true)%char.
Proof.
  unfold is_list_start_line. intros H. apply andb_prop in H as [_ H].
  apply list_start_search_iff in H as (marker & rest & Heq & Hm).
  destruct (list_marker_head _ Hm) as (c & t & -> & _ & Hc).
  exists c. split; [|exact Hc]. exact (first_char_lstrip _ _ _ Heq).
Qed.

Lemma thematic_break_iff (line : string) :
  is_thematic_break_line line = true <->
  is_indented_code_block_start_line line = false /\
  exists c n,
    (c = "*" \/ c = "_" \/ c = "-")%char /\ 3 <= n /\
    remove_space line = Py.repeat (String c "") n.
Proof.
  unfold is_thematic_break_line. rewrite join_split.
  unfold THEMATIC_BREAK_CHARACTERS, thematic_symbol_loop.
  rewrite (spaceless_strip _ (remove_space_spaceless line)).
  destruct (is_indented_code_block_start_line line).
  { split; [discriminate | intros [H _]; discriminate]. }
  destruct (String.length (remove_space line) <? 3) eqn:Hlen.
  - split; [discriminate|]. intros [_ (c & n & _ & Hn & Heq)].
    rewrite Heq, repeat_length in Hlen. apply Nat.ltb_lt in Hlen. lia.
  - apply Nat.ltb_ge in Hlen. split.
    + intros H. split; [reflexivity|].
      destruct (Py.all (char_is "*") (remove_space line)) eqn:H1;
        [|destruct (Py.all (char_is "_") (remove_space line)) eqn:H2;
          [|destruct (Py.all (char_is "-") (remove_space line)) eqn:H3;
            [|discriminate]]].
      * apply all_char_is_repeat in H1. eexists _, _. eauto.
      * apply all_char_is_repeat in H2. eexists _, _. eauto.
      * apply all_char_is_repeat in H3. eexists _, _. eauto 6.
    + intros [_ (c & n & Hc & Hn & Heq)]. rewrite Heq.
      pose proof (repeat_all c n) as Hall.
      destruct Hc as [-> | [-> | ->]]; rewrite Hall;
        repeat match goal with
               | |- context [if ?b then _ else _] => destruct b
               end; reflexivity.
Qed.

Lemma first_char_thematic (line : string) :
  is_thematic_break_line line = true ->
  exists c,
    first_char line = Some c /\ (c = "*" \/ c = "_" \/ c = "-")%char.
Proof.
  intros H. apply thematic_break_iff in H as [_ (c & n & Hc & Hn & Heq)].
  exists c. split; [|exact Hc].
  destruct n as [|n]; [lia|]. exact (first_char_remove_space _ _ _ Heq).
Qed.

Lemma setext_underline_strip (line : string) :
  is_setext_underline line = true ->
  is_indented_code_block_start_line line = false /\
  exists c n,
    (c = "=" \/ c = "-")%char /\
    Py.strip line = Py.repeat (String c "") (S n).
Proof.
  unfold is_setext_underline. intros H.
  apply andb_prop in H as [H Hall]. apply andb_prop in H as [Hi Hne].
  apply negb_true_iff in Hi. split; [exact Hi|].
  destruct (Py.strip line) as [|d s] eqn:Hs; [discriminate|].
  apply orb_prop in Hall as [Hall | Hall];
    apply all_char_is_repeat in Hall; simpl String.length in Hall;
    eexists _, (String.length s); (split; [|exact Hall]); auto.
Qed.

Lemma first_char_setext (line : string) :
  is_setext_underline line = true ->
  first_char line = Some "="%char \/ first_char line = Some "-"%char.
Proof.
  intros H. apply setext_underline_strip in H as [_ (c & n & Hc & Heq)].
  apply first_char_strip in Heq. destruct Hc; subst; auto.
Qed.

(** Two predicates that ask for different first characters do not hold of
    the same line. *)
Ltac first_chars :=
  repeat match goal with
         | H : exists _, _ |- _ => destruct H
         | H : _ /\ _ |- _ => destruct H
         | H : _ \/ _ |- _ => destruct H
         end;
  repeat match goal with
         | H1 : first_char ?l = _, H2 : first_char ?l = _ |- _ =>
             rewrite H1 in H2; inversion H2; subst; clear H2
         end;
  try discriminate; try congruence.

Ltac no_marker lemma :=
  lazymatch goal with
  | |- ?p ?line = false =>
      let H := fresh "H" in
      destruct (p line) eqn:H; [exfalso; apply lemma in H; first_chars
                               | reflexivity]
  end.

(** ** The line predicates: further properties *)

Lemma list_start_not_blank (line : string) :
  (exists marker rest,
      Py.lstrip line = (marker ++ " " ++ rest)%string /\ list_marker marker) ->
  Py.truthy (Py.strip line) = true.
Proof.
  intros (marker & rest & Heq & Hm).
  destruct (list_marker_head _ Hm) as (c & t & -> & Hc & _).
  unfold Py.strip. rewrite Heq. exact (rstrip_keeps_head c _ Hc).
Qed.

(** X1. A line is a list start exactly when it does not open an indented
    code block and, leading white space skipped, begins with [*], [-], [+]
    or digits and a dot, and then a space.  Such a line is not blank and has
    fewer than four white-space characters in front. *)
Theorem list_start_line_iff (line : string) :
  (is_list_start_line line = true <->
   is_indented_code_block_start_line line = false /\
   exists marker rest,
     Py.lstrip line = (marker ++ " " ++ rest)%string /\ list_marker marker) /\
  (is_list_start_line line = true ->
   is_blank_line_line line = false /\ get_indent line <= 3).
Proof.
  assert (Hiff : is_list_start_line line = true <->
                 is_indented_code_block_start_line line = false /\
                 exists marker rest,
                   Py.lstrip line = (marker ++ " " ++ rest)%string /\
                   list_marker marker).
  { unfold is_list_start_line.
    rewrite andb_true_iff, negb_true_iff, list_start_search_iff.
    reflexivity. }
  split; [exact Hiff|]. intros H. apply Hiff in H as [Hi Hm].
  apply list_start_not_blank in Hm.
  unfold is_blank_line_line, is_indented_code_block_start_line in *.
  rewrite Hm in *. split; [reflexivity|].
  rewrite andb_true_l in Hi. apply Nat.leb_gt in Hi. lia.
Qed.

Lemma list_start_line_iff_witness :
  is_list_start_line "  12. twelfth" = true /\ get_indent "  12. twelfth" <= 3.
Proof.
  assert (H : is_list_start_line "  12. twelfth" = true).
  { apply (proj2 (proj1 (list_start_line_iff "  12. twelfth"))).
    split; [reflexivity|]. exists "12.", "twelfth". split; [reflexivity|].
    apply (marker_number "12"); [discriminate | reflexivity]. }
  split; [exact H|].
  exact (proj2 (proj2 (list_start_line_iff "  12. twelfth") H)).
Defined.

(** X2. A line is a thematic break exactly when it does not open an indented
    code block and, all its white space taken out, is three or more times
    the same character, which is one of [*], [_] and [-].  So where the white
    space stands in the line does not matter, as long as the line does not
    become the start of an indented code block. *)
Theorem thematic_break_line_iff (line : string) :
  (is_thematic_break_line line = true <->
   is_indented_code_block_start_line line = false /\
   exists c n,
     (c = "*" \/ c = "_" \/ c = "-")%char /\ 3 <= n /\
     remove_space line = Py.repeat (String c "") n) /\
  (forall line',
      remove_space line' = remove_space line ->
      is_indented_code_block_start_line line' = false ->
      is_indented_code_block_start_line line = false ->
      is_thematic_break_line line' = is_thematic_break_line line).
Proof.
  split; [exact (thematic_break_iff line)|].
  intros line' Heq Hi' Hi.
  destruct (is_thematic_break_line line) eqn:H.
  - apply thematic_break_iff in H as [_ H]. apply thematic_break_iff.
    split; [exact Hi'|]. now rewrite Heq.
  - destruct (is_thematic_break_line line') eqn:H'; [|reflexivity].
    apply thematic_break_iff in H' as [_ H']. rewrite Heq in H'.
    rewrite <- H. symmetry. apply thematic_break_iff. now split.
Qed.

Lemma thematic_break_line_iff_witness :
  is_thematic_break_line " _  _ _" = true /\
  is_thematic_break_line "_ _ _" = is_thematic_break_line "___".
Proof.
  split.
  - apply (proj2 (proj1 (thematic_break_line_iff " _  _ _"))).
    split; [reflexivity|]. exists "_"%char, 3.
    split; [auto | split; [lia | reflexivity]].
  - apply (proj2 (thematic_break_line_iff "___") "_ _ _"); reflexivity.
Defined.

Lemma first_char_blank (line : string) :
  is_blank_line_line line = true -> first_char line = None.
Proof.
  intros H. apply blank_iff, lstrip_empty_iff in H.
  unfold first_char. now rewrite H.
Qed.

(** X3. A line is blank exactly when all its characters are white space, and
    a blank line satisfies none of the other predicates. *)
Theorem blank_line_alone (line : string) :
  (is_blank_line_line line = true <-> Py.all Py.isspace line = true) /\
  (is_blank_line_line line = true ->
   is_indented_code_block_start_line line = false /\
   is_atx_heading_line line = false /\
   is_block_quote_line line = false /\
   is_fenced_code_block_start_line line = false /\
   is_list_start_line line = false /\
   is_table_start_line line = false /\
   is_thematic_break_line line = false /\
   is_setext_underline line = false /\
   is_paragraph_start_line line = false).
Proof.
  split; [apply blank_iff|]. intros Hb.
  pose proof (first_char_blank line Hb) as Hfc.
  repeat split.
  - unfold is_indented_code_block_start_line, is_blank_line_line in *.
    apply negb_true_iff in Hb. now rewrite Hb.
  - no_marker first_char_atx.
  - no_marker first_char_block_quote.
  - no_marker first_char_fenced.
  - no_marker first_char_list.
  - no_marker first_char_table.
  - no_marker first_char_thematic.
  - no_marker first_char_setext.
  - destruct (is_paragraph_start_line line) eqn:Hp; [|reflexivity].
    apply paragraph_checker_loop_true in Hp.
    unfold paragraph_line_checkers in Hp. rewrite Forall_forall in Hp.
    rewrite (Hp is_blank_line_line) in Hb; [discriminate|].
    simpl. auto.
Qed.

Lemma blank_line_alone_witness :
  is_list_start_line "   " = false /\ is_paragraph_start_line "   " = false.
Proof.
  destruct (proj2 (blank_line_alone "   ") eq_refl)
    as (_ & _ & _ & _ & Hl & _ & _ & _ & Hp).
  now split.
Defined.

(** X4. White space in front of a line changes neither whether it opens a
    fenced code block nor whether it opens a table.  So four spaces in front
    of a fence or of a table row give a line that opens an indented code
    block and still is a fence start, or a table start. *)
Theorem fence_and_table_ignore_indentation (line : string) :
  (forall ws,
      Py.all Py.isspace ws = true ->
      is_fenced_code_block_start_line (ws ++ line)
        = is_fenced_code_block_start_line line /\
      is_table_start_line (ws ++ line) = is_table_start_line line) /\
  (is_fenced_code_block_start_line line = true ->
   is_fenced_code_block_start_line ("    " ++ line) = true /\
   is_indented_code_block_start_line ("    " ++ line) = true) /\
  (is_table_start_line line = true ->
   is_table_start_line ("    " ++ line) = true /\
   is_indented_code_block_start_line ("    " ++ line) = true).
Proof.
  assert (Hws : forall ws,
             Py.all Py.isspace ws = true ->
             is_fenced_code_block_start_line (ws ++ line)
               = is_fenced_code_block_start_line line /\
             is_table_start_line (ws ++ line) = is_table_start_line line).
  { intros ws H.
    unfold is_fenced_code_block_start_line, is_table_start_line,
      FENCED_CODE_BLOCK_FENCE_CHARACTERS.
    cbn [fenced_start_loop]. unfold Py.strip.
    now rewrite (lstrip_app_space ws line H). }
  assert (Hind : Py.truthy (Py.strip line) = true ->
                 is_indented_code_block_start_line ("    " ++ line) = true).
  { intros H. unfold is_indented_code_block_start_line, Py.strip in *.
    rewrite (lstrip_app_space "    " line eq_refl), H.
    now rewrite leading_spaces_indent. }
  split; [exact Hws | split]; intros H;
    (split; [first [ rewrite (proj1 (Hws "    " eq_refl)); exact H
                   | rewrite (proj2 (Hws "    " eq_refl)); exact H ] |]);
    apply Hind.
  - destruct (first_char_fenced line H) as [Hc | Hc];
      unfold first_char, Py.strip in *;
      destruct (lstrip_head line) as [He | (c & t & He & Hsp)];
      rewrite He in *; try discriminate; exact (rstrip_keeps_head c t Hsp).
  - pose proof (first_char_table line H) as Hc.
    unfold first_char, Py.strip in *.
    destruct (lstrip_head line) as [He | (c & t & He & Hsp)];
      rewrite He in *; try discriminate; exact (rstrip_keeps_head c t Hsp).
Qed.

Lemma fence_and_table_ignore_indentation_witness :
  (is_fenced_code_block_start_line "    ```python3" = true /\
   is_indented_code_block_start_line "    ```python3" = true) /\
  (is_table_start_line "    |Table|" = true /\
   is_indented_code_block_start_line "    |Table|" = true).
Proof.
  split.
  - apply (proj1 (proj2 (fence_and_table_ignore_indentation "```python3"))).
    reflexivity.
  - apply (proj2 (proj2 (fence_and_table_ignore_indentation "|Table|"))).
    reflexivity.
Defined.

(** X5. Each predicate that looks for a marker fixes the first character of
    the line that is not white space: [#] for an ATX heading, [>] for a block
    quote, [|] for a table, a backtick or [~] for a fence, [*], [-], [+] or
    a digit for a list, [*], [_] or [-] for a thematic break, [=] or [-] for
    a setext underline. *)
Theorem marker_first_character (line : string) :
  (is_atx_heading_line line = true -> first_char line = Some "#"%char) /\
  (is_block_quote_line line = true -> first_char line = Some ">"%char) /\
  (is_table_start_line line = true -> first_char line = Some "|"%char) /\
  (is_fenced_code_block_start_line line = true ->
   first_char line = Some "`"%char \/ first_char line = Some "~"%char) /\
  (is_list_start_line line = true ->
   exists c,
     first_char line = Some c /\
     (c = "*" \/ c = "-" \/ c = "+" \/ is_digit c = true)%char) /\
  (is_thematic_break_line line = true ->
   exists c,
     first_char line = Some c /\ (c = "*" \/ c = "_" \/ c = "-")%char) /\
  (is_setext_underline line = true ->
   first_char line = Some "="%char \/ first_char line = Some "-"%char).
Proof.
  repeat split.
  - apply first_char_atx.
  - apply first_char_block_quote.
  - apply first_char_table.
  - apply first_char_fenced.
  - apply first_char_list.
  - apply first_char_thematic.
  - apply first_char_setext.
Qed.

Lemma marker_first_character_witness :
  first_char "  > quoted" = Some ">"%char /\
  (exists c, first_char " 7. seventh" = Some c /\
             (c = "*" \/ c = "-" \/ c = "+" \/ is_digit c = true)%char).
Proof.
  split.
  - apply (proj1 (proj2 (marker_first_character "  > quoted"))). reflexivity.
  - apply (proj1 (proj2 (proj2 (proj2 (proj2
             (marker_first_character " 7. seventh")))))).
    reflexivity.
Defined.

(** X6. Of ATX heading, block quote, table start and fence start, a line is
    at most one; and a line that is one of them is no list start, no thematic
    break and no setext underline. *)
Theorem marker_predicates_exclusive (line : string) :
  (is_atx_heading_line line = true ->
   is_block_quote_line line = false /\
   is_table_start_line line = false /\
   is_fenced_code_block_start_line line = false /\
   is_list_start_line line = false /\
   is_thematic_break_line line = false /\
   is_setext_underline line = false) /\
  (is_block_quote_line line = true ->
   is_atx_heading_line line = false /\
   is_table_start_line line = false /\
   is_fenced_code_block_start_line line = false /\
   is_list_start_line line = false /\
   is_thematic_break_line line = false /\
   is_setext_underline line = false) /\
  (is_table_start_line line = true ->
   is_atx_heading_line line = false /\
   is_block_quote_line line = false /\
   is_fenced_code_block_start_line line = false /\
   is_list_start_line line = false /\
   is_thematic_break_line line = false /\
   is_setext_underline line = false) /\
  (is_fenced_code_block_start_line line = true ->
   is_atx_heading_line line = false /\
   is_block_quote_line line = false /\
   is_table_start_line line = false /\
   is_list_start_line line = false /\
   is_thematic_break_line line = false /\
   is_setext_underline line = false).
Proof.
  split; [|split; [|split]]; intros Hone.
  - apply first_char_atx in Hone. repeat split.
    + no_marker first_char_block_quote.
    + no_marker first_char_table.
    + no_marker first_char_fenced.
    + no_marker first_char_list.
    + no_marker first_char_thematic.
    + no_marker first_char_setext.
  - apply first_char_block_quote in Hone. repeat split.
    + no_marker first_char_atx.
    + no_marker first_char_table.
    + no_marker first_char_fenced.
    + no_marker first_char_list.
    + no_marker first_char_thematic.
    + no_marker first_char_setext.
  - apply first_char_table in Hone. repeat split.
    + no_marker first_char_atx.
    + no_marker first_char_block_quote.
    + no_marker first_char_fenced.
    + no_marker first_char_list.
    + no_marker first_char_thematic.
    + no_marker first_char_setext.
  - apply first_char_fenced in Hone. repeat split.
    + no_marker first_char_atx.
    + no_marker first_char_block_quote.
    + no_marker first_char_table.
    + no_marker first_char_list.
    + no_marker first_char_thematic.
    + no_marker first_char_setext.
Qed.

Lemma marker_predicates_exclusive_witness :
  is_list_start_line "#1. not a list" = false /\
  is_thematic_break_line "~~~" = false.
Proof.
  split.
  - destruct (proj1 (marker_predicates_exclusive "#1. not a list") eq_refl)
      as (_ & _ & _ & Hlist & _). exact Hlist.
  - destruct (proj2 (proj2 (proj2 (marker_predicates_exclusive "~~~")))
                eq_refl)
      as (_ & _ & _ & _ & Hthematic & _). exact Hthematic.
Defined.

Lemma setext_underline_not_blank (line : string) :
  is_setext_underline line = true -> is_blank_line_line line = false.
Proof.
  unfold is_setext_underline, is_blank_line_line. intros H.
  apply andb_prop in H as [H _]. apply andb_prop in H as [_ H].
  now rewrite H.
Qed.

(** X7. A setext underline is a paragraph start unless it is a thematic
    break or a list start: of the eight predicates that rule a paragraph
    start out, these two are the only ones an underline can satisfy. *)
Theorem setext_underline_paragraph_start (line : string) :
  is_setext_underline line = true ->
  is_paragraph_start_line line
    = negb (is_thematic_break_line line) && negb (is_list_start_line line) /\
  is_indented_code_block_start_line line = false /\
  is_atx_heading_line line = false /\
  is_blank_line_line line = false /\
  is_block_quote_line line = false /\
  is_fenced_code_block_start_line line = false /\
  is_table_start_line line = false.
Proof.
  intros Hs.
  pose proof (proj1 (setext_underline_strip line Hs)) as Hi.
  pose proof (setext_underline_not_blank line Hs) as Hb.
  pose proof (first_char_setext line Hs) as Hone.
  assert (Hatx : is_atx_heading_line line = false)
    by no_marker first_char_atx.
  assert (Hbq : is_block_quote_line line = false)
    by no_marker first_char_block_quote.
  assert (Hf : is_fenced_code_block_start_line line = false)
    by no_marker first_char_fenced.
  assert (Ht : is_table_start_line line = false)
    by no_marker first_char_table.
  repeat split; try assumption.
  unfold is_paragraph_start_line, paragraph_line_checkers.
  cbn [paragraph_checker_loop]. rewrite Hi, Hatx, Hb, Hbq, Hf, Ht.
  destruct (is_list_start_line line), (is_thematic_break_line line);
    reflexivity.
Qed.

Lemma setext_underline_paragraph_start_witness :
  is_paragraph_start_line "  ====  " = true /\
  is_paragraph_start_line "--" = true /\
  is_paragraph_start_line " ---" = false.
Proof.
  split; [|split].
  - exact (proj1 (setext_underline_paragraph_start "  ====  " eq_refl)).
  - exact (proj1 (setext_underline_paragraph_start "--" eq_refl)).
  - exact (proj1 (setext_underline_paragraph_start " ---" eq_refl)).
Defined.

(** X8. A setext underline is a thematic break as well exactly when it is
    made of three or more dashes. *)
Theorem setext_underline_thematic_break (line : string) :
  is_setext_underline line = true ->
  (is_thematic_break_line line = true <->
   exists n, 3 <= n /\ Py.strip line = Py.repeat "-" n).
Proof.
  intros Hs.
  destruct (setext_underline_strip line Hs) as [Hi (c & n & Hc & Heq)].
  assert (Hrm : remove_space line = Py.strip line).
  { rewrite <- remove_space_strip. apply spaceless_remove_space.
    rewrite Heq. apply repeat_spaceless. destruct Hc; subst; reflexivity. }
  rewrite thematic_break_iff, Hrm, Heq. split.
  - intros [_ (d & m & Hd & Hm & Hrep)].
    pose proof (f_equal String.length Hrep) as Hlen.
    rewrite !repeat_length in Hlen. subst m.
    simpl in Hrep. inversion Hrep; subst.
    exists (S n). split; [exact Hm|].
    destruct Hc as [Hc | Hc]; [|now subst].
    subst. destruct Hd as [Hd | [Hd | Hd]]; discriminate.
  - intros (m & Hm & Hrep). split; [exact Hi|].
    exists "-"%char, m. auto.
Qed.

Lemma setext_underline_thematic_break_witness :
  is_thematic_break_line "  ----" = true.
Proof.
  apply (proj2 (setext_underline_thematic_break "  ----" eq_refl)).
  exists 4. split; [lia | reflexivity].
Defined.

(** ** The pipeline: further properties *)

Lemma loop_body_Raise (D : Detectors) (st : loop_state) (e : exn) :
  loop_body D st = Raise e ->
  for_splitters (SPLITTERS D) (remaining_lines st) = None /\
  e = RuntimeError (stall_message (sections st)).
Proof.
  unfold loop_body.
  destruct (for_splitters (SPLITTERS D) (remaining_lines st))
    as [[[ty c] r]|]; [discriminate|].
  intros H. inversion H. now split.
Qed.

(** An exception out of the loop comes from a state it went through, at
    which lines were left that no splitter took. *)
Lemma while_remaining_Raise (D : Detectors) (lines : list string)
  (fuel : nat) :
  forall st e,
    reachable D lines st ->
    while_remaining D fuel st = Raise e ->
    exists st',
      reachable D lines st' /\
      remaining_lines st' <> [] /\
      for_splitters (SPLITTERS D) (remaining_lines st') = None /\
      e = RuntimeError (stall_message (sections st')).
Proof.
  induction fuel as [|fuel IH]; intros st e Hr Hw.
  - simpl in Hw. destruct (remaining_lines st); discriminate.
  - destruct (remaining_lines st) as [|l ls] eqn:Hrem.
    + rewrite (while_remaining_done _ _ _ Hrem) in Hw. discriminate.
    + assert (Hne : remaining_lines st <> []) by (rewrite Hrem; discriminate).
      rewrite (while_remaining_turn _ _ _ Hne) in Hw.
      destruct (loop_body D st) as [st1|e1|] eqn:Hbody; try discriminate.
      * apply (IH st1 e); [|exact Hw].
        exact (reach_turn D lines st st1 Hr Hne Hbody).
      * inversion Hw; subst. apply loop_body_Raise in Hbody as [Hnone ->].
        now exists st.
Qed.

Lemma skipn_length_app {A : Type} (a b : list A) :
  skipn (List.length a) (a ++ b) = b.
Proof. induction a as [|x a IH]; simpl; [reflexivity | exact IH]. Qed.

Lemma firstn_length_app {A : Type} (a b : list A) :
  firstn (List.length a) (a ++ b) = a.
Proof. induction a as [|x a IH]; simpl; [reflexivity | now rewrite IH]. Qed.

Lemma sections_count (secs : list section) :
  Forall (fun sec : section => snd sec <> []) secs ->
  List.length secs <= classified_lines secs.
Proof.
  induction 1 as [|[ty c] secs Hc _ IH]; [apply Nat.le_refl|].
  unfold classified_lines in *. simpl in *.
  destruct c; [contradiction|]. simpl. lia.
Qed.

(** Where a formatter of the list stands in it, and what offset it has. *)
Lemma annotate_In_split (secs : list section) (f : formatter) :
  forall offset,
    In f (annotate offset secs) ->
    exists pre post,
      secs = pre ++ (f_type f, f_content f) :: post /\
      f_offset f = offset + classified_lines pre.
Proof.
  induction secs as [|[ty c] secs IH]; intros offset; [intros []|].
  simpl. intros [<- | Hin].
  - exists [], secs. split; [reflexivity|]. simpl.
    unfold classified_lines. simpl. lia.
  - destruct (IH _ Hin) as (pre & post & -> & Hoff).
    exists ((ty, c) :: pre), post. split; [reflexivity|].
    rewrite Hoff. unfold classified_lines. simpl. lia.
Qed.

Lemma section_lines_split (pre post : list section) (sec : section) :
  section_lines (pre ++ sec :: post)
  = section_lines pre ++ snd sec ++ section_lines post.
Proof.
  unfold section_lines. rewrite map_app, concat_app. reflexivity.
Qed.

(** X9. What [reformat_markdown_text] returns is a text that one pass leaves
    as it is; and the texts that [reformat_markdown_text] returns unchanged
    are those that one pass returns unchanged. *)
Theorem returned_text_is_fixed_point {Number : Type} (D : Detectors)
  (F : Formatters Number) (fuel : nat) (text : string) (width : Number) :
  (forall new_text,
      reformat_markdown_text D F fuel text width = Return new_text ->
      _reformat_markdown_text D F fuel new_text width = Return new_text) /\
  (reformat_markdown_text D F fuel text width = Return text <->
   _reformat_markdown_text D F fuel text width = Return text).
Proof.
  split.
  - intros new_text H. now apply reformat_Return in H.
  - split; intros H.
    + now apply reformat_Return in H.
    + apply reformat_Return. now split.
Qed.

Lemma returned_text_is_fixed_point_witness :
  _reformat_markdown_text sample_detectors (constant_formatters "# h" "p" "x")
    2 ("# h" ++ NL) 88
  = Return ("# h" ++ NL)%string.
Proof.
  apply (proj1 (returned_text_is_fixed_point sample_detectors
                  (constant_formatters "# h" "p" "x") 2 "#title" 88)).
  reflexivity.
Defined.

(** X10. [reformat_markdown_text] raises [RuntimeError] exactly when the
    first pass does, or the first pass returns and the second pass, on the
    text returned, does; the message is that pass's. *)
Theorem runtime_error_from_either_pass {Number : Type} (D : Detectors)
  (F : Formatters Number) (fuel : nat) (text : string) (width : Number)
  (message : string) :
  reformat_markdown_text D F fuel text width = Raise (RuntimeError message) <->
  _reformat_markdown_text D F fuel text width = Raise (RuntimeError message) \/
  exists new_text,
    _reformat_markdown_text D F fuel text width = Return new_text /\
    _reformat_markdown_text D F fuel new_text width
      = Raise (RuntimeError message).
Proof.
  unfold reformat_markdown_text. split.
  - destruct (_reformat_markdown_text D F fuel text width) as [t1|e|] eqn:H1;
      try discriminate; [|intros H; now left].
    destruct (_reformat_markdown_text D F fuel t1 width) as [t2|e|] eqn:H2;
      try discriminate.
    + destruct (negb (String.eqb t2 t1)); discriminate.
    + intros H. right. exists t1. split; [reflexivity|].
      rewrite H2. exact H.
  - intros [H | (t1 & H1 & H2)]; [now rewrite H|]. now rewrite H1, H2.
Qed.

Lemma runtime_error_from_either_pass_witness :
  reformat_markdown_text sample_detectors (constant_formatters "> q" "p" "x")
    1 "# h" 88
  = Raise (RuntimeError "Could not determine section type on line 1").
Proof.
  apply (proj2 (runtime_error_from_either_pass sample_detectors
                  (constant_formatters "> q" "p" "x") 1 "# h" 88 _)).
  right. exists ("> q" ++ NL)%string. split; reflexivity.
Defined.

(** X11. With splitters that each return their input cut in two, an
    exception out of one pass is a [RuntimeError] whose message names a line
    of the document, and from that line on no splitter takes any. *)
Theorem stall_line_in_document {Number : Type} (D : Detectors)
  (F : Formatters Number) (fuel : nat) (text : string) (width : Number)
  (e : exn) :
  partition_contract D ->
  _reformat_markdown_text D F fuel text width = Raise e ->
  exists n line rest,
    e = RuntimeError ("Could not determine section type on line "
                      ++ Py.str_of_nat n) /\
    1 <= n <= List.length (Py.splitlines text) /\
    skipn (n - 1) (Py.splitlines text) = line :: rest /\
    for_splitters (SPLITTERS D) (line :: rest) = None.
Proof.
  intros Hp H. unfold _reformat_markdown_text in H.
  destruct (classify D fuel (Py.splitlines text)) as [st| |] eqn:Hc;
    try discriminate.
  inversion H; subst; clear H.
  destruct (while_remaining_Raise D _ fuel _ _ (reach_start D _) Hc)
    as (st & Hr & Hne & Hnone & ->).
  pose proof (reachable_partition D Hp _ _ Hr) as Hlines.
  destruct (remaining_lines st) as [|line rest] eqn:Hrem; [contradiction|].
  exists (classified_lines (sections st) + 1), line, rest.
  split; [reflexivity|].
  rewrite classified_lines_length, Nat.add_sub, <- Hlines.
  rewrite skipn_length_app, length_app. simpl.
  repeat split; [lia | lia | exact Hnone].
Qed.

Lemma stall_line_in_document_witness :
  exists n line rest,
    RuntimeError "Could not determine section type on line 3"
    = RuntimeError ("Could not determine section type on line "
                    ++ Py.str_of_nat n) /\
    1 <= n <= List.length (Py.splitlines ("a" ++ NL ++ NL ++ "> quote")) /\
    skipn (n - 1) (Py.splitlines ("a" ++ NL ++ NL ++ "> quote"))
      = line :: rest /\
    for_splitters (SPLITTERS sample_detectors) (line :: rest) = None.
Proof.
  exact (stall_line_in_document sample_detectors
           (constant_formatters "h" "p" "x") 3
           ("a" ++ NL ++ NL ++ "> quote") 88 _ sample_partition eq_refl).
Defined.

(** X12. With splitters that each return their input cut in two, every
    formatter handed to the rendering holds lines of the document, one at
    least, and its offset is where the first of them stands, counted from
    zero. *)
Theorem formatter_offsets_locate_lines (D : Detectors) (lines : list string)
  (fuel : nat) (st : loop_state) :
  partition_contract D ->
  classify D fuel lines = Return st ->
  forall f,
    In f (formatters (render_loop render_start (sections st))) ->
    f_content f <> [] /\
    f_offset f + List.length (f_content f) <= List.length lines /\
    firstn (List.length (f_content f)) (skipn (f_offset f) lines)
      = f_content f.
Proof.
  intros Hp Hc f Hin.
  destruct (while_remaining_reachable D _ fuel _ st (reach_start D lines) Hc)
    as [Hr Hrem].
  pose proof (reachable_partition D Hp _ _ Hr) as Hlines.
  rewrite Hrem, app_nil_r in Hlines.
  pose proof (reachable_sections_nonempty D _ _ Hr) as Hne.
  rewrite render_loop_emits in Hin. apply drop_trailing_blank_In in Hin.
  destruct (annotate_In_split _ _ _ Hin) as (pre & post & Hsecs & Hoff).
  rewrite Hsecs in Hlines, Hne. rewrite section_lines_split in Hlines.
  simpl snd in Hlines. simpl in Hoff.
  rewrite Hoff, classified_lines_length, <- Hlines.
  split; [|split].
  - apply Forall_app in Hne as [_ Hne]. now inversion Hne.
  - rewrite !length_app. lia.
  - now rewrite skipn_length_app, firstn_length_app.
Qed.

Lemma formatter_offsets_locate_lines_witness :
  firstn 2 (skipn 2 ["a"; ""; "b"; "--"]) = ["b"; "--"].
Proof.
  exact (proj2 (proj2
    (formatter_offsets_locate_lines sample_detectors ["a"; ""; "b"; "--"] 3
       _ sample_partition eq_refl
       {| f_type := SETEXT_HEADING; f_offset := 2; f_content := ["b"; "--"] |}
       (or_intror (or_intror (or_introl eq_refl)))))).
Defined.

(** X13. No section record the loop returns is empty; so, with splitters
    that each return their input cut in two, there are no more sections than
    lines. *)
Theorem sections_never_empty (D : Detectors) (lines : list string)
  (fuel : nat) (st : loop_state) :
  classify D fuel lines = Return st ->
  Forall (fun sec : section => snd sec <> []) (sections st) /\
  (partition_contract D -> List.length (sections st) <= List.length lines).
Proof.
  intros Hc.
  destruct (while_remaining_reachable D _ fuel _ st (reach_start D lines) Hc)
    as [Hr Hrem].
  pose proof (reachable_sections_nonempty D _ _ Hr) as Hne.
  split; [exact Hne|]. intros Hp.
  pose proof (reachable_partition D Hp _ _ Hr) as Hlines.
  rewrite Hrem, app_nil_r in Hlines.
  rewrite <- Hlines, <- classified_lines_length. now apply sections_count.
Qed.

Lemma sections_never_empty_witness :
  List.length [(PARAGRAPH, ["a"]); (BLANK_LINE, [""]);
               (SETEXT_HEADING, ["b"; "--"])] <= 4.
Proof.
  exact (proj2 (sections_never_empty sample_detectors ["a"; ""; "b"; "--"] 3
                  _ eq_refl) sample_partition).
Defined.

(** X14. A turn of the loop that takes a section and leaves the remaining
    lines as they were is followed by the same turn, without end: however
    many turns are allowed, neither the loop nor the passes come to a
    result. *)
Theorem turn_without_progress_never_ends {Number : Type} (D : Detectors)
  (F : Formatters Number) (text : string) (width : Number)
  (section_type : MarkdownSectionEnum) (section_content : list string) :
  Py.splitlines text <> [] ->
  for_splitters (SPLITTERS D) (Py.splitlines text)
    = Some (section_type, section_content, Py.splitlines text) ->
  forall fuel,
    classify D fuel (Py.splitlines text) = OutOfFuel /\
    _reformat_markdown_text D F fuel text width = OutOfFuel /\
    reformat_markdown_text D F fuel text width = OutOfFuel.
Proof.
  intros Hne Hfor.
  assert (Hloop : forall fuel st,
             remaining_lines st = Py.splitlines text ->
             while_remaining D fuel st = OutOfFuel).
  { induction fuel as [|fuel IH]; intros st Hrem.
    - simpl. rewrite Hrem. destruct (Py.splitlines text);
        [contradiction | reflexivity].
    - rewrite while_remaining_turn by (now rewrite Hrem).
      unfold loop_body. rewrite Hrem, Hfor. now apply IH. }
  intros fuel.
  assert (Hc : classify D fuel (Py.splitlines text) = OutOfFuel)
    by now apply Hloop.
  split; [exact Hc|].
  assert (H1 : _reformat_markdown_text D F fuel text width = OutOfFuel)
    by (unfold _reformat_markdown_text; now rewrite Hc).
  split; [exact H1|]. unfold reformat_markdown_text. now rewrite H1.
Qed.

Lemma turn_without_progress_never_ends_witness :
  reformat_markdown_text keeping_detectors (constant_formatters "h" "p" "x")
    1000 "text" 88 = OutOfFuel.
Proof.
  refine (proj2 (proj2 (turn_without_progress_never_ends keeping_detectors
                          (constant_formatters "h" "p" "x") "text" 88
                          ATX_HEADING ["text"] _ _ 1000))).
  - discriminate.
  - reflexivity.
Defined.

Lemma first_char_startswith (line : string) (c : ascii) :
  first_char line = Some c ->
  Py.startswith (Py.lstrip line) (String c "") = true.
Proof.
  unfold first_char, Py.startswith.
  destruct (Py.lstrip line) as [|d t]; [discriminate|].
  intros H. inversion H; subst. simpl.
  destruct (ascii_dec c c) as [_ | Hne]; [|now destruct Hne].
  now destruct t.
Qed.

Lemma first_char_not_blank (line : string) (c : ascii) :
  first_char line = Some c -> Py.truthy (Py.strip line) = true.
Proof.
  unfold first_char, Py.strip.
  destruct (lstrip_head line) as [-> | (d & t & -> & Hd)]; [discriminate|].
  intros _. exact (rstrip_keeps_head d t Hd).
Qed.

(** X15. A line with fewer than four white-space characters in front whose
    first other character is none of [#], [>], [|], the backtick, [~], [*],
    [-], [+], [_] and the digits is a paragraph start.  A paragraph start,
    in turn, is not blank, has fewer than four white-space characters in
    front, and does not begin with [#], [>] or [|]. *)
Theorem paragraph_start_by_first_character (line : string) :
  (forall c,
      first_char line = Some c ->
      is_marker_char c = false ->
      get_indent line <= 3 ->
      is_paragraph_start_line line = true) /\
  (is_paragraph_start_line line = true ->
   get_indent line <= 3 /\
   exists c,
     first_char line = Some c /\ c <> "#"%char /\ c <> ">"%char /\
     c <> "|"%char).
Proof.
  split.
  - intros c Hfc Hc Hindent.
    apply paragraph_checker_loop_true. unfold paragraph_line_checkers.
    repeat match goal with
           | |- Forall _ (_ :: _) => apply Forall_cons
           | |- Forall _ [] => apply Forall_nil
           end.
    + unfold is_indented_code_block_start_line.
      assert (Hleb : (4 <=? get_indent line) = false)
        by (apply Nat.leb_gt; lia).
      rewrite Hleb. apply andb_false_r.
    + no_marker first_char_atx.
    + no_marker first_char_blank.
    + no_marker first_char_block_quote.
    + no_marker first_char_fenced.
    + destruct (is_list_start_line line) eqn:H; [|reflexivity].
      apply first_char_list in H as (d & Hd & Hset). rewrite Hfc in Hd.
      inversion Hd; subst. unfold is_marker_char in Hc.
      destruct Hset as [-> | [-> | [-> | Hdig]]]; try discriminate.
      rewrite Hdig, orb_true_r in Hc. discriminate.
    + no_marker first_char_table.
    + no_marker first_char_thematic.
  - intros Hp. apply paragraph_checker_loop_true in Hp.
    unfold paragraph_line_checkers in Hp. rewrite Forall_forall in Hp.
    pose proof (Hp is_indented_code_block_start_line) as Hi.
    pose proof (Hp is_atx_heading_line) as Hatx.
    pose proof (Hp is_blank_line_line) as Hb.
    pose proof (Hp is_block_quote_line) as Hbq.
    pose proof (Hp is_table_start_line) as Ht.
    simpl in Hi, Hatx, Hb, Hbq, Ht.
    specialize (Hi ltac:(auto 10)). specialize (Hatx ltac:(auto 10)).
    specialize (Hb ltac:(auto 10)). specialize (Hbq ltac:(auto 10)).
    specialize (Ht ltac:(auto 10)).
    unfold is_blank_line_line in Hb. apply negb_false_iff in Hb.
    unfold is_indented_code_block_start_line in Hi. rewrite Hb in Hi.
    rewrite andb_true_l in Hi. apply Nat.leb_gt in Hi.
    split; [lia|].
    unfold is_atx_heading_line, is_block_quote_line,
      is_indented_code_block_start_line in Hatx, Hbq.
    rewrite Hb in Hatx, Hbq.
    assert (Hleb : (4 <=? get_indent line) = false) by (apply Nat.leb_gt; lia).
    rewrite Hleb in Hatx, Hbq. simpl in Hatx, Hbq.
    unfold is_table_start_line in Ht.
    destruct (first_char line) as [c|] eqn:Hfc.
    + exists c. split; [reflexivity|].
      pose proof (first_char_startswith line c Hfc) as Hsw.
      repeat split; intros ->; congruence.
    + exfalso. unfold first_char, Py.strip in *.
      destruct (Py.lstrip line); [discriminate | discriminate].
Qed.

Lemma paragraph_start_by_first_character_witness :
  is_paragraph_start_line "  [a]: b" = true /\ get_indent "  [a]: b" <= 3.
Proof.
  assert (H : is_paragraph_start_line "  [a]: b" = true).
  { apply (proj1 (paragraph_start_by_first_character "  [a]: b") "["%char);
      [reflexivity | reflexivity | simpl; lia]. }
  split; [exact H|].
  exact (proj1 (proj2 (paragraph_start_by_first_character "  [a]: b") H)).
Defined.
